(** * BabelDOC MCP server: the tool-call orchestration layer

    A shallow embedding of [babeldoc/mcp_server/server.py] and the
    properties of its path resolver, dispatcher, configuration
    reconciliation, event-stream reduction and error mapping.

    Conventions of the embedding.
    - A Python [str] is a [string], read as its UTF-8 bytes: concatenation,
      equality, emptiness and prefixes are the same on both sides.
    - A dynamically typed value (a JSON argument, an event field) is a
      [pyval]; a [dict] with string keys is a [gmap string pyval].
    - A call that may raise returns a [res]; calls that touch the outside
      world (the file system, the translation engine) run in the monad [M],
      which threads the file system and the log of external calls.
    - The translation engine, [unicodedata.normalize] and [json.dumps] are
      collaborators that the server only calls: they are parameters
      ([Engine], [Runtime]). *)

From Stdlib Require Import ZArith String Ascii List Bool DecimalString.
From stdpp Require Import base gmap strings list.

Set Warnings "-register-all".
Open Scope string_scope.

(** ** Python values *)

(** The values an argument bag or an event can hold.  [PyObj text truth]
    stands for any other object (a float, a list, a dict, an engine result
    object): [text] is what [str()] gives for it and [truth] what [bool()]
    gives. *)
Inductive pyval : Type :=
| PyNone
| PyBool (b : bool)
| PyInt (z : Z)
| PyStr (s : string)
| PyObj (text : string) (truth : bool).

(** [bool(v)], the test behind [if v:], [not v] and [v or w]. *)
Definition truthy (v : pyval) : bool :=
  match v with
  | PyNone => false
  | PyBool b => b
  | PyInt z => negb (z =? 0)%Z
  | PyStr s => match s with EmptyString => false | String _ _ => true end
  | PyObj _ t => t
  end.

(** [str(v)], also what an f-string field [{v}] expands to. *)
Definition py_str (v : pyval) : string :=
  match v with
  | PyNone => "None"
  | PyBool true => "True"
  | PyBool false => "False"
  | PyInt z => NilZero.string_of_int (Z.to_int z)
  | PyStr s => s
  | PyObj text _ => text
  end.

(** [v == s] for a string literal [s]: only a [str] equals a [str]. *)
Definition py_eq_str (v : pyval) (s : string) : bool :=
  match v with
  | PyStr t => String.eqb t s
  | _ => false
  end.

(** [a or b]. *)
Definition py_or (a b : pyval) : pyval := if truthy a then a else b.

(** [d.get(k)] and [d.get(k, dflt)]. *)
Definition dict_get (d : gmap string pyval) (k : string) : pyval :=
  match d !! k with
  | Some v => v
  | None => PyNone
  end.

Definition dict_get_default (d : gmap string pyval) (k : string) (dflt : pyval) : pyval :=
  match d !! k with
  | Some v => v
  | None => dflt
  end.

(** ** Exceptions *)

(** An instance of (a subclass of) [Exception]: its class name and [str(e)].
    Signals below [BaseException] only (interpreter exit, task cancellation)
    are outside the model. *)
Record exn : Type := Exn { exn_class : string; exn_str : string }.

Inductive res (A : Type) : Type :=
| Ret (a : A)
| Raise (e : exn).

Arguments Ret {A} a.
Arguments Raise {A} e.

(** ** pathlib *)

(** [s.split(sep)] for the one-character separator [sep]. *)
Fixpoint str_split (sep : ascii) (s : string) : list string :=
  match s with
  | EmptyString => [EmptyString]
  | String c s' =>
      if Ascii.eqb c sep then EmptyString :: str_split sep s'
      else match str_split sep s' with
           | h :: t => String c h :: t
           | [] => [String c EmptyString]
           end
  end.

(** [posixpath.splitroot]: the root is one slash, exactly two slashes, or
    nothing. *)
Definition splitroot (p : string) : string * string :=
  match p with
  | String c0 rest =>
      if Ascii.eqb c0 "/" then
        match rest with
        | String c1 rest2 =>
            if Ascii.eqb c1 "/" then
              match rest2 with
              | String c2 _ => if Ascii.eqb c2 "/" then ("/", rest) else ("//", rest2)
              | EmptyString => ("//", rest2)
              end
            else ("/", rest)
        | EmptyString => ("/", rest)
        end
      else ("", p)
  | EmptyString => ("", p)
  end.

(** A [pathlib.Path] on a POSIX system: its root and its components. *)
Record Path : Type := mkPath { p_root : string; p_tail : list string }.

Definition keep_component (x : string) : bool :=
  negb (String.eqb x "") && negb (String.eqb x ".").

(** [Path(s)]: empty and [.] components are dropped. *)
Definition Path_of (s : string) : Path :=
  let '(r, rel) := splitroot s in
  mkPath r (List.filter keep_component (str_split "/" rel)).

(** [str(p)]. *)
Definition Path_str (p : Path) : string :=
  match p_root p, p_tail p with
  | EmptyString, [] => "."
  | r, t => r ++ String.concat "/" t
  end.

(** [p.name]. *)
Definition Path_name (p : Path) : string := List.last (p_tail p) "".

(** [p.parent]. *)
Definition Path_parent (p : Path) : Path :=
  match p_tail p with
  | [] => p
  | _ => mkPath (p_root p) (List.removelast (p_tail p))
  end.

(** An entry [name] of the directory [p], as [p.iterdir()] yields it. *)
Definition Path_child (p : Path) (name : string) : Path :=
  mkPath (p_root p) (p_tail p ++ [name]).

(** [s.rfind(".")]. *)
Fixpoint rfind_dot (s : string) : option nat :=
  match s with
  | EmptyString => None
  | String c s' =>
      match rfind_dot s' with
      | Some i => Some (S i)
      | None => if Ascii.eqb c "." then Some 0 else None
      end
  end.

(** [p.suffix]: the last dot of the name and what follows, unless the dot is
    the first or the last character. *)
Definition Path_suffix (p : Path) : string :=
  let name := Path_name p in
  match rfind_dot name with
  | Some i =>
      if (0 <? i)%nat && (i <? String.length name - 1)%nat
      then String.substring i (String.length name - i) name
      else ""
  | None => ""
  end.

Definition ascii_lower (c : ascii) : ascii :=
  let n := nat_of_ascii c in
  if (65 <=? n)%nat && (n <=? 90)%nat then ascii_of_nat (n + 32) else c.

(** [s.lower()] on the ASCII letters.  No character outside ASCII lowercases
    to a dot or to one of the letters p, d, f, so the comparison of a
    lowercased suffix with [.pdf] comes out as in Python. *)
Fixpoint str_lower (s : string) : string :=
  match s with
  | EmptyString => EmptyString
  | String c s' => String (ascii_lower c) (str_lower s')
  end.

(** ** JSON documents and the collaborators of the standard library *)

Inductive json : Type :=
| JNull
| JBool (b : bool)
| JInt (z : Z)
| JStr (s : string)
| JOpaque (text : string)
| JList (items : list json)
| JDict (fields : list (string * json)).

(** The JSON form of a value; for an object other than a scalar only its
    [str()] is known. *)
Definition json_of (v : pyval) : json :=
  match v with
  | PyNone => JNull
  | PyBool b => JBool b
  | PyInt z => JInt z
  | PyStr s => JStr s
  | PyObj text _ => JOpaque text
  end.

(** What the server calls in the standard library and does not define:
    [unicodedata.normalize] for the two forms, [json.dumps(_, indent=2)], and
    the message of the [TypeError] that [Path(v)] raises for a [v] that is
    not a string. *)
Class Runtime : Type := {
  normalize_NFC : string -> string;
  normalize_NFD : string -> string;
  json_dumps : json -> string;
  Path_type_error : pyval -> string
}.

(** The file system as the server uses it.  [fs_exists] is [Path.exists()]:
    false for a missing entry, and an [OSError] that is not of the
    not-found kind (a directory that may not be searched) is raised.
    [fs_listdir] is the listing behind [Path.iterdir()], in the order the
    system gives.  [fs_mkdir] is [Path.mkdir(parents=True, exist_ok=True)]. *)
Class FileSystem (FS : Type) : Type := {
  fs_exists : FS -> string -> res bool;
  fs_listdir : FS -> string -> res (list string);
  fs_mkdir : FS -> string -> res FS
}.

(** ** The translation engine *)

Inductive WatermarkOutputMode : Type := Watermarked | NoWatermark.

(** The keyword arguments of [OpenAITranslator(...)]. *)
Record TranslatorArgs : Type := {
  tr_lang_in : pyval;
  tr_lang_out : pyval;
  tr_model : pyval;
  tr_base_url : pyval;
  tr_api_key : pyval;
  tr_ignore_cache : bool;
  tr_enable_json_mode_if_requested : bool;
  tr_send_dashscope_header : bool;
  tr_send_temperature : bool
}.

(** The keyword arguments of [TranslationConfig(...)] that depend on the
    call.  The translator and the layout model are handed over as they were
    obtained, and the remaining arguments are constants of the source. *)
Record TranslationConfigArgs : Type := {
  tc_input_file : string;
  tc_pages : pyval;
  tc_output_dir : string;
  tc_lang_in : pyval;
  tc_lang_out : pyval;
  tc_no_dual : pyval;
  tc_no_mono : pyval;
  tc_qps : pyval;
  tc_watermark_output_mode : WatermarkOutputMode
}.

(** An event of the stream is a dict. *)
Abbreviation event := (gmap string pyval).

(** How the engine answers each call of the server: [None] when the call
    returns, [Some e] when it raises [e].  The job's stream yields finitely
    many events and then is exhausted ([None]) or raises ([Some e]).  The
    three counters are what the translator handle holds afterwards. *)
Record Engine : Type := {
  engine_init : option exn;
  engine_OpenAITranslator : TranslatorArgs -> option exn;
  engine_set_translate_rate_limiter : pyval -> option exn;
  engine_load_onnx : option exn;
  engine_TranslationConfig : TranslationConfigArgs -> option exn;
  engine_async_translate : TranslationConfigArgs -> list event * option exn;
  engine_token_count : pyval;
  engine_prompt_token_count : pyval;
  engine_completion_token_count : pyval
}.

(** The calls that leave the server, in the order they are made. *)
Inductive call : Type :=
| call_init
| call_OpenAITranslator (a : TranslatorArgs)
| call_set_translate_rate_limiter (qps : pyval)
| call_load_onnx
| call_mkdir (dir : string)
| call_TranslationConfig (c : TranslationConfigArgs)
| call_async_translate (c : TranslationConfigArgs).

(** ** The result of a tool call *)

Record TextContent : Type := { type : string; text : string }.
Record CallToolResult : Type := { content : list TextContent }.

Definition text_result (t : string) : CallToolResult :=
  {| content := [ {| type := "text"; text := t |} ] |}.

(** ** The monad of the handlers *)

Record World (FS : Type) : Type := mkWorld { w_fs : FS; w_calls : list call }.

Arguments mkWorld {FS} _ _.
Arguments w_fs {FS} _.
Arguments w_calls {FS} _.

Definition M (FS A : Type) : Type := World FS -> res A * World FS.

Definition ret {FS A} (a : A) : M FS A := fun w => (Ret a, w).

Definition raise {FS A} (e : exn) : M FS A := fun w => (Raise e, w).

Definition bind {FS A B} (m : M FS A) (k : A -> M FS B) : M FS B :=
  fun w =>
    match m w with
    | (Ret a, w') => k a w'
    | (Raise e, w') => (Raise e, w')
    end.

(** [try: m  except Exception as e: h e]. *)
Definition try_except {FS A} (m : M FS A) (h : exn -> M FS A) : M FS A :=
  fun w =>
    match m w with
    | (Ret a, w') => (Ret a, w')
    | (Raise e, w') => h e w'
    end.

(** A computation that may raise and touches nothing. *)
Definition lift {FS A} (r : res A) : M FS A := fun w => (r, w).

(** A computation that only reads the file system. *)
Definition read_fs {FS A} (f : FS -> res A) : M FS A :=
  fun w => (f (w_fs w), w).

(** A call of the engine: it is logged, then it returns or raises. *)
Definition external {FS} (c : call) (answer : option exn) : M FS unit :=
  fun w =>
    (match answer with None => Ret tt | Some e => Raise e end,
     mkWorld (w_fs w) (w_calls w ++ [c])).

Definition res_bind {A B} (m : res A) (k : A -> res B) : res B :=
  match m with
  | Ret a => k a
  | Raise e => Raise e
  end.

Notation "x <- m ;; k" := (bind m (fun x => k))
  (at level 100, m at next level, right associativity).
Notation "m ;; k" := (bind m (fun _ => k))
  (at level 100, right associativity).
Notation "x <~ m ;; k" := (res_bind m (fun x => k))
  (at level 100, m at next level, right associativity).

(** ** The server *)

(** The dict that [get_env_config] returns; its six keys are fixed. *)
Record EnvConfig : Type := {
  openrouter_api_key : pyval;
  openrouter_base_url : pyval;
  openrouter_model : pyval;
  openai_api_key : pyval;
  openai_base_url : pyval;
  openai_model : pyval
}.

(** [os.environ.get(k)] and [os.environ.get(k, dflt)]. *)
Definition environ_get (environ : gmap string string) (k : string) : pyval :=
  match environ !! k with
  | Some v => PyStr v
  | None => PyNone
  end.

Definition environ_get_default (environ : gmap string string) (k dflt : string) : pyval :=
  match environ !! k with
  | Some v => PyStr v
  | None => PyStr dflt
  end.

Definition get_env_config (environ : gmap string string) : EnvConfig := {|
  openrouter_api_key := environ_get environ "OPENROUTER_API_KEY";
  openrouter_base_url :=
    environ_get_default environ "OPENROUTER_BASE_URL" "https://openrouter.ai/api/v1";
  openrouter_model :=
    environ_get_default environ "OPENROUTER_MODEL" "google/gemini-2.5-flash";
  openai_api_key := environ_get environ "OPENAI_API_KEY";
  openai_base_url := environ_get environ "OPENAI_BASE_URL";
  openai_model := environ_get_default environ "OPENAI_MODEL" "gpt-4o-mini"
|}.

Definition supported_languages : list string :=
  [ "en (English)"; "zh (Chinese)"; "vi (Vietnamese)"; "ja (Japanese)";
    "ko (Korean)"; "es (Spanish)"; "fr (French)"; "de (German)";
    "pt (Portuguese)"; "ru (Russian)"; "ar (Arabic)"; "th (Thai)";
    "id (Indonesian)" ].

(** The [status] dict of [get_translation_status]. *)
Definition translation_status (environ : gmap string string) : list (string * json) :=
  let config := get_env_config environ in
  [ ("service", JStr "BabelDOC MCP Server");
    ("version", JStr "1.0.0");
    ("openrouter_configured", JBool (truthy (openrouter_api_key config)));
    ("openrouter_model", json_of (openrouter_model config));
    ("openrouter_base_url", json_of (openrouter_base_url config));
    ("openai_configured", JBool (truthy (openai_api_key config)));
    ("openai_model", json_of (openai_model config));
    ("supported_languages", JList (List.map JStr supported_languages)) ].

(** The local variables of [translate_pdf] once the service is selected
    (source lines 254 to 290). *)
Record CallSettings : Type := {
  s_service : pyval;
  s_lang_in : pyval;
  s_lang_out : pyval;
  s_pages : pyval;
  s_no_dual : pyval;
  s_no_mono : pyval;
  s_qps : pyval;
  s_watermark : pyval;
  s_output_dir : pyval;
  s_api_key : pyval;
  s_model : pyval;
  s_base_url : pyval
}.

(** The three variables of the event loop. *)
Record loop_state : Type := {
  result_info : pyval;
  progress_info : list string;
  translation_error : pyval
}.

Definition loop_start : loop_state :=
  {| result_info := PyNone; progress_info := []; translation_error := PyNone |}.

(** The body of the [async for] loop, for one event. *)
Definition handle_event (ev : event) (st : loop_state) : res loop_state :=
  match ev !! "type" with
  | None => Raise (Exn "KeyError" "'type'")
  | Some ty =>
      if py_eq_str ty "progress_update" then
        let stage := dict_get_default ev "stage" (PyStr "unknown") in
        let current := dict_get_default ev "stage_current" (PyInt 0) in
        let total := dict_get_default ev "stage_total" (PyInt 100) in
        Ret {| result_info := result_info st;
               progress_info :=
                 progress_info st ++ [py_str stage ++ ": " ++ py_str current ++ "/" ++ py_str total];
               translation_error := translation_error st |}
      else if py_eq_str ty "error" then
        Ret {| result_info := result_info st;
               progress_info := progress_info st;
               translation_error := dict_get_default ev "error" (PyStr "Unknown error") |}
      else if py_eq_str ty "finish" then
        Ret {| result_info := dict_get ev "translate_result";
               progress_info := progress_info st;
               translation_error := translation_error st |}
      else Ret st
  end.

(** The loop over the events the stream yields, in emission order. *)
Fixpoint handle_events (evs : list event) (st : loop_state) : res loop_state :=
  match evs with
  | [] => Ret st
  | ev :: rest => st' <~ handle_event ev st ;; handle_events rest st'
  end.

Section Server.

Context {RT : Runtime} {FS : Type} {FSI : FileSystem FS}.
Variable engine : Engine.
Variable environ : gmap string string.

(** The [for item in parent.iterdir()] loop over the listed names. *)
Fixpoint match_children (parent : Path) (target_name_nfc target_name_nfd : string)
    (names : list string) : option Path :=
  match names with
  | [] => None
  | name :: rest =>
      let item := Path_child parent name in
      let item_name_nfc := normalize_NFC (Path_name item) in
      let item_name_nfd := normalize_NFD (Path_name item) in
      if String.eqb item_name_nfc target_name_nfc || String.eqb item_name_nfd target_name_nfd
      then Some item
      else if String.eqb item_name_nfc target_name_nfd || String.eqb item_name_nfd target_name_nfc
      then Some item
      else match_children parent target_name_nfc target_name_nfd rest
  end.

Definition resolve_path_with_unicode_normalization (file_path : string) (fs : FS)
    : res (option Path) :=
  let path := Path_of file_path in
  found <~ fs_exists fs (Path_str path) ;;
  if found then Ret (Some path) else
  let nfc_path := Path_of (normalize_NFC file_path) in
  found_nfc <~ fs_exists fs (Path_str nfc_path) ;;
  if found_nfc then Ret (Some nfc_path) else
  let nfd_path := Path_of (normalize_NFD file_path) in
  found_nfd <~ fs_exists fs (Path_str nfd_path) ;;
  if found_nfd then Ret (Some nfd_path) else
  let parent := Path_parent path in
  found_parent <~ fs_exists fs (Path_str parent) ;;
  if found_parent then
    let target_name_nfc := normalize_NFC (Path_name path) in
    let target_name_nfd := normalize_NFD (Path_name path) in
    names <~ fs_listdir fs (Path_str parent) ;;
    Ret (match_children parent target_name_nfc target_name_nfd names)
  else Ret None.

Definition get_translation_status (_arguments : gmap string pyval) : M FS CallToolResult :=
  ret (text_result (json_dumps (JDict (translation_status environ)))).

(** [Path(v)]: a [TypeError] unless [v] is a string. *)
Definition Path_ctor (v : pyval) : res Path :=
  match v with
  | PyStr s => Ret (Path_of s)
  | _ => Raise (Exn "TypeError" (Path_type_error v))
  end.

(** [output_path.mkdir(parents=True, exist_ok=True)]. *)
Definition mkdir (output_path : Path) : M FS unit :=
  fun w =>
    let calls := (w_calls w ++ [call_mkdir (Path_str output_path)])%list in
    match fs_mkdir (w_fs w) (Path_str output_path) with
    | Ret fs' => (Ret tt, mkWorld fs' calls)
    | Raise e => (Raise e, mkWorld (w_fs w) calls)
    end.

(** The [async for] loop: the job is started, its events are handled one by
    one, and the loop ends when the stream is exhausted or raises. *)
Definition consume_stream (c : TranslationConfigArgs) : M FS loop_state :=
  fun w =>
    let '(evs, stop) := engine_async_translate engine c in
    let w' := mkWorld (w_fs w) (w_calls w ++ [call_async_translate c])%list in
    match handle_events evs loop_start with
    | Raise e => (Raise e, w')
    | Ret st =>
        match stop with
        | None => (Ret st, w')
        | Some e => (Raise e, w')
        end
    end.

(** Source lines 412 to 450: the result once the stream is exhausted. *)
Definition translation_result (input_path output_path : Path) (s : CallSettings)
    (st : loop_state) : CallToolResult :=
  if truthy (translation_error st) then
    text_result ("Translation error: " ++ py_str (translation_error st))
  else if truthy (result_info st) then
    text_result (json_dumps (JDict
      [ ("status", JStr "success");
        ("input_file", JStr (Path_str input_path));
        ("output_dir", JStr (Path_str output_path));
        ("lang_in", json_of (s_lang_in s));
        ("lang_out", json_of (s_lang_out s));
        ("service", json_of (s_service s));
        ("model", json_of (s_model s));
        ("result", JStr (py_str (result_info st)));
        ("token_usage", JDict
           [ ("total_tokens", json_of (engine_token_count engine));
             ("prompt_tokens", json_of (engine_prompt_token_count engine));
             ("completion_tokens", json_of (engine_completion_token_count engine)) ]) ]))
  else
    text_result "Translation completed but no result information available".

(** The body of the [try] block (source lines 302 to 450). *)
Definition translation_body (input_path : Path) (s : CallSettings) : M FS CallToolResult :=
  external call_init (engine_init engine) ;;
  let translator :=
    {| tr_lang_in := s_lang_in s;
       tr_lang_out := s_lang_out s;
       tr_model := s_model s;
       tr_base_url := s_base_url s;
       tr_api_key := s_api_key s;
       tr_ignore_cache := false;
       tr_enable_json_mode_if_requested := false;
       tr_send_dashscope_header := false;
       tr_send_temperature := true |} in
  external (call_OpenAITranslator translator) (engine_OpenAITranslator engine translator) ;;
  external (call_set_translate_rate_limiter (s_qps s))
           (engine_set_translate_rate_limiter engine (s_qps s)) ;;
  external call_load_onnx (engine_load_onnx engine) ;;
  output_path <- lift (Path_ctor (s_output_dir s)) ;;
  mkdir output_path ;;
  let watermark_mode := if truthy (s_watermark s) then Watermarked else NoWatermark in
  let translation_config :=
    {| tc_input_file := Path_str input_path;
       tc_pages := s_pages s;
       tc_output_dir := Path_str output_path;
       tc_lang_in := s_lang_in s;
       tc_lang_out := s_lang_out s;
       tc_no_dual := s_no_dual s;
       tc_no_mono := s_no_mono s;
       tc_qps := s_qps s;
       tc_watermark_output_mode := watermark_mode |} in
  external (call_TranslationConfig translation_config)
           (engine_TranslationConfig engine translation_config) ;;
  st <- consume_stream translation_config ;;
  ret (translation_result input_path output_path s st).

(** The [try] block with its handler (source lines 301 to 456).  The
    handler also logs the exception, which the model leaves out. *)
Definition run_translation (input_path : Path) (s : CallSettings) : M FS CallToolResult :=
  try_except (translation_body input_path s)
    (fun e => ret (text_result ("Translation failed: " ++ exn_str e))).

(** Source lines 252 to 299: the settings of the call, or the result that is
    returned at once. *)
Definition resolve_settings (arguments : gmap string pyval) (input_path : Path)
    : CallToolResult + CallSettings :=
  let config := get_env_config environ in
  let service := dict_get_default arguments "service" (PyStr "openrouter") in
  let lang_in := dict_get_default arguments "lang_in" (PyStr "en") in
  let lang_out := dict_get_default arguments "lang_out" (PyStr "zh") in
  let pages := dict_get arguments "pages" in
  let no_dual := dict_get_default arguments "no_dual" (PyBool false) in
  let no_mono := dict_get_default arguments "no_mono" (PyBool false) in
  let qps := dict_get_default arguments "qps" (PyInt 4) in
  let watermark := dict_get_default arguments "watermark" (PyBool true) in
  let output_dir :=
    py_or (dict_get arguments "output_dir") (PyStr (Path_str (Path_parent input_path))) in
  let settings api_key model base_url :=
    {| s_service := service; s_lang_in := lang_in; s_lang_out := lang_out;
       s_pages := pages; s_no_dual := no_dual; s_no_mono := no_mono;
       s_qps := qps; s_watermark := watermark; s_output_dir := output_dir;
       s_api_key := api_key; s_model := model; s_base_url := base_url |} in
  if py_eq_str service "openrouter" then
    let api_key := openrouter_api_key config in
    if negb (truthy api_key) then
      inl (text_result "Error: OPENROUTER_API_KEY environment variable not set")
    else
      inr (settings api_key
             (py_or (dict_get arguments "model") (openrouter_model config))
             (openrouter_base_url config))
  else if py_eq_str service "openai" then
    let api_key := openai_api_key config in
    if negb (truthy api_key) then
      inl (text_result "Error: OPENAI_API_KEY environment variable not set")
    else
      inr (settings api_key
             (py_or (dict_get arguments "model") (openai_model config))
             (openai_base_url config))
  else
    inl (text_result
           ("Error: Unknown service: " ++ py_str service ++ ". Use 'openrouter' or 'openai'")).

(** [translate_pdf].  The resolver starts with [Path(file_path)], which
    raises a [TypeError] when the argument is not a string. *)
Definition translate_pdf (arguments : gmap string pyval) : M FS CallToolResult :=
  let input_file := dict_get arguments "input_file" in
  if negb (truthy input_file) then ret (text_result "Error: input_file is required") else
  input_path <- match input_file with
                | PyStr file_path => read_fs (resolve_path_with_unicode_normalization file_path)
                | _ => raise (Exn "TypeError" (Path_type_error input_file))
                end ;;
  match input_path with
  | None => ret (text_result ("Error: File not found: " ++ py_str input_file))
  | Some input_path =>
      if negb (String.eqb (str_lower (Path_suffix input_path)) ".pdf") then
        ret (text_result "Error: File must be a PDF")
      else
        match resolve_settings arguments input_path with
        | inl early => ret early
        | inr s => run_translation input_path s
        end
  end.

Definition call_tool (name : string) (arguments : gmap string pyval) : M FS CallToolResult :=
  if String.eqb name "translate_pdf" then translate_pdf arguments
  else if String.eqb name "get_translation_status" then get_translation_status arguments
  else ret (text_result ("Unknown tool: " ++ name)).

End Server.

(** ** A file system of files and directories

    An instance of [FileSystem] to run the server on: a tree without links.
    A directory can always be searched; it is [open] when it may also be
    listed and written to.  Names are looked up as they are written; a [..]
    component is a name like any other and is never found. *)

Inductive node : Type :=
| File
| Dir (open : bool) (entries : list (string * node)).

Fixpoint entry_lookup (name : string) (es : list (string * node)) : option node :=
  match es with
  | [] => None
  | (n, c) :: rest => if String.eqb n name then Some c else entry_lookup name rest
  end.

Fixpoint entry_update (name : string) (c' : node) (es : list (string * node))
    : list (string * node) :=
  match es with
  | [] => []
  | (n, c) :: rest =>
      if String.eqb n name then (n, c') :: rest else (n, c) :: entry_update name c' rest
  end.

Inductive walk_result : Type :=
| Found (n : node)
| Missing
| NotADirectory.

Fixpoint walk (n : node) (parts : list string) : walk_result :=
  match parts with
  | [] => Found n
  | name :: rest =>
      match n with
      | File => NotADirectory
      | Dir _ es =>
          match entry_lookup name es with
          | Some c => walk c rest
          | None => Missing
          end
      end
  end.

Definition os_error (class message path : string) : exn :=
  Exn class (message ++ ": '" ++ path ++ "'").

(** [mkdir -p]: missing directories are made where the parent is open, an
    existing directory is kept, a file in the way is an error. *)
Fixpoint make_dirs (path : string) (n : node) (parts : list string) : res node :=
  match n with
  | File =>
      match parts with
      | [] => Raise (os_error "FileExistsError" "[Errno 17] File exists" path)
      | _ :: _ => Raise (os_error "NotADirectoryError" "[Errno 20] Not a directory" path)
      end
  | Dir open es =>
      match parts with
      | [] => Ret n
      | name :: rest =>
          match entry_lookup name es with
          | Some c => c' <~ make_dirs path c rest ;; Ret (Dir open (entry_update name c' es))
          | None =>
              if open then
                c' <~ make_dirs path (Dir true []) rest ;;
                Ret (Dir open (es ++ [(name, c')]))
              else Raise (os_error "PermissionError" "[Errno 13] Permission denied" path)
          end
      end
  end.

Record TreeFS : Type := { tree_root : node; tree_cwd : list string }.

(** The components of a path from the root of the tree. *)
Definition tree_parts (t : TreeFS) (path : string) : list string :=
  let p := Path_of path in
  match p_root p with
  | EmptyString => (tree_cwd t ++ p_tail p)%list
  | _ => p_tail p
  end.

Definition tree_exists (t : TreeFS) (path : string) : res bool :=
  match walk (tree_root t) (tree_parts t path) with
  | Found _ => Ret true
  | _ => Ret false
  end.

Definition tree_listdir (t : TreeFS) (path : string) : res (list string) :=
  match walk (tree_root t) (tree_parts t path) with
  | Found (Dir true es) => Ret (List.map fst es)
  | Found (Dir false _) =>
      Raise (os_error "PermissionError" "[Errno 13] Permission denied" path)
  | Found File => Raise (os_error "NotADirectoryError" "[Errno 20] Not a directory" path)
  | NotADirectory => Raise (os_error "NotADirectoryError" "[Errno 20] Not a directory" path)
  | Missing => Raise (os_error "FileNotFoundError" "[Errno 2] No such file or directory" path)
  end.

Definition tree_mkdir (t : TreeFS) (path : string) : res TreeFS :=
  root' <~ make_dirs path (tree_root t) (tree_parts t path) ;;
  Ret {| tree_root := root'; tree_cwd := tree_cwd t |}.

Definition TreeFS_FileSystem : FileSystem TreeFS := {|
  fs_exists := tree_exists;
  fs_listdir := tree_listdir;
  fs_mkdir := tree_mkdir
|}.

(** ** A runtime to run the server on

    Exact on text whose only character outside ASCII is the letter e with an
    acute accent, composed (U+00E9) or decomposed (e, U+0301). *)

Definition e_acute : string := String "195" (String "169" EmptyString).
Definition e_then_acute : string := String "e" (String "204" (String "129" EmptyString)).

Fixpoint nfc_e_acute (s : string) : string :=
  match s with
  | EmptyString => EmptyString
  | String c t =>
      match t with
      | String c1 (String c2 rest) =>
          if Ascii.eqb c "e" && Ascii.eqb c1 "204" && Ascii.eqb c2 "129"
          then e_acute ++ nfc_e_acute rest
          else String c (nfc_e_acute t)
      | _ => String c (nfc_e_acute t)
      end
  end.

Fixpoint nfd_e_acute (s : string) : string :=
  match s with
  | EmptyString => EmptyString
  | String c t =>
      match t with
      | String c1 rest =>
          if Ascii.eqb c "195" && Ascii.eqb c1 "169"
          then e_then_acute ++ nfd_e_acute rest
          else String c (nfd_e_acute t)
      | _ => String c (nfd_e_acute t)
      end
  end.

Definition dq : string := String "034" EmptyString.
Definition nl : string := String "010" EmptyString.

Definition hex_digit (n : nat) : ascii :=
  if (n <? 10)%nat then ascii_of_nat (48 + n) else ascii_of_nat (87 + n).

(** The escapes of [json.dumps] for the characters of ASCII. *)
Definition json_escape_char (c : ascii) : string :=
  let n := nat_of_ascii c in
  if Ascii.eqb c "034" then "\" ++ dq
  else if Ascii.eqb c "\" then "\\"
  else if Ascii.eqb c "010" then "\n"
  else if Ascii.eqb c "013" then "\r"
  else if Ascii.eqb c "009" then "\t"
  else if Ascii.eqb c "008" then "\b"
  else if Ascii.eqb c "012" then "\f"
  else if (n <? 32)%nat || (n =? 127)%nat then
    "\u00" ++ String (hex_digit (n / 16)) (String (hex_digit (n mod 16)) EmptyString)
  else String c EmptyString.

(** The escapes of a string; the two characters outside ASCII that this
    runtime knows are written by their code points. *)
Fixpoint json_escape (s : string) : string :=
  match s with
  | EmptyString => EmptyString
  | String c t =>
      match t with
      | String c1 rest =>
          if Ascii.eqb c "195" && Ascii.eqb c1 "169" then "\u00e9" ++ json_escape rest
          else if Ascii.eqb c "204" && Ascii.eqb c1 "129" then "\u0301" ++ json_escape rest
          else json_escape_char c ++ json_escape t
      | EmptyString => json_escape_char c ++ json_escape t
      end
  end.

Definition json_quote (s : string) : string := dq ++ json_escape s ++ dq.

(** [json.dumps(j, indent=2)], with [indent] the indentation reached. *)
Fixpoint json_dumps_indent (indent : string) (j : json) : string :=
  let inner := indent ++ "  " in
  match j with
  | JNull => "null"
  | JBool true => "true"
  | JBool false => "false"
  | JInt z => NilZero.string_of_int (Z.to_int z)
  | JStr s => json_quote s
  | JOpaque t => t
  | JList [] => "[]"
  | JList items =>
      "[" ++ nl
      ++ String.concat ("," ++ nl)
           (List.map (fun x => inner ++ json_dumps_indent inner x) items)
      ++ nl ++ indent ++ "]"
  | JDict [] => "{}"
  | JDict fields =>
      "{" ++ nl
      ++ String.concat ("," ++ nl)
           (List.map (fun kv => inner ++ json_quote (fst kv) ++ ": "
                                ++ json_dumps_indent inner (snd kv)) fields)
      ++ nl ++ indent ++ "}"
  end.

Definition type_name (v : pyval) : string :=
  match v with
  | PyNone => "NoneType"
  | PyBool _ => "bool"
  | PyInt _ => "int"
  | PyStr _ => "str"
  | PyObj _ _ => "object"
  end.

Definition e_acute_runtime : Runtime := {|
  normalize_NFC := nfc_e_acute;
  normalize_NFD := nfd_e_acute;
  json_dumps := json_dumps_indent "";
  Path_type_error v := "expected str, bytes or os.PathLike object, not " ++ type_name v
|}.

(** ** Reading the results *)

(** The value of key [k] in a JSON object. *)
Fixpoint json_field (k : string) (fields : list (string * json)) : option json :=
  match fields with
  | [] => None
  | (k', v) :: rest => if String.eqb k' k then Some v else json_field k rest
  end.

(** The text of a result, which holds one text item. *)
Definition result_text (r : CallToolResult) : string :=
  match content r with
  | [c] => text c
  | _ => ""
  end.

(** The resolver's words for step 4: the name of a child matches the target
    name when one of the four comparisons of their normal forms holds. *)
Definition name_matches {RT : Runtime} (target item : string) : Prop :=
  normalize_NFC item = normalize_NFC target
  \/ normalize_NFD item = normalize_NFD target
  \/ normalize_NFC item = normalize_NFD target
  \/ normalize_NFD item = normalize_NFC target.

(** The precedence rule in the words of the specification: the value used
    is the argument when the call gives one, and the default otherwise. *)
Definition explicit_or_default (arguments : gmap string pyval) (k : string)
    (dflt used : pyval) : Prop :=
  match arguments !! k with
  | Some v => used = v
  | None => used = dflt
  end.

(** A handler is stateless when its result, the file system it leaves and
    the calls it makes are the same whatever calls were made before it. *)
Definition stateless {FS A : Type} (m : M FS A) : Prop :=
  forall (fs : FS) (before : list call),
    m (mkWorld fs before)
    = (fst (m (mkWorld fs [])),
       mkWorld (w_fs (snd (m (mkWorld fs [])))) (before ++ w_calls (snd (m (mkWorld fs []))))).

(** The settings, when the call got as far as having them. *)
Definition settings_of (r : CallToolResult + CallSettings) : option CallSettings :=
  match r with
  | inl _ => None
  | inr s => Some s
  end.

(** No job request was built and no job was started. *)
Definition no_job (calls : list call) : Prop :=
  forall c, ~ In (call_TranslationConfig c) calls /\ ~ In (call_async_translate c) calls.

(** The engine was initialised, then the directory [dir] was made with its
    parents, and only then the job request for that directory was built
    and, when the request was accepted, the job started. *)
Definition job_after_mkdir (dir : string) (calls : list call) : Prop :=
  exists translator qps c rest,
    tc_output_dir c = dir
    /\ calls = ([ call_init; call_OpenAITranslator translator;
                  call_set_translate_rate_limiter qps; call_load_onnx;
                  call_mkdir dir; call_TranslationConfig c ] ++ rest)%list
    /\ (rest = [] \/ rest = [call_async_translate c]).

(** A component holds no separator when splitting leaves it whole. *)
Definition no_slash (x : string) : Prop := str_split "/" x = [x].

(** The paths that [Path(s)] builds: one of the three roots, and components
    that are not empty, not a dot, and hold no separator. *)
Definition wf_path (p : Path) : Prop :=
  (p_root p = "" \/ p_root p = "/" \/ p_root p = "//")
  /\ Forall (fun x => keep_component x = true /\ no_slash x) (p_tail p).

(** An event of the given kind. *)
Definition event_is (kind : string) (ev : event) : bool :=
  match ev !! "type" with
  | Some ty => py_eq_str ty kind
  | None => false
  end.

(** The payload of the last [error] event of a sequence, if it has one; an
    [error] event without the key [error] carries [Unknown error]. *)
Fixpoint last_error (evs : list event) : option pyval :=
  match evs with
  | [] => None
  | ev :: rest =>
      match last_error rest with
      | Some payload => Some payload
      | None =>
          if event_is "error" ev
          then Some (dict_get_default ev "error" (PyStr "Unknown error"))
          else None
      end
  end.

(** The payload of the last [finish] event of a sequence, if it has one; a
    [finish] event without the key [translate_result] carries [None]. *)
Fixpoint last_finish (evs : list event) : option pyval :=
  match evs with
  | [] => None
  | ev :: rest =>
      match last_finish rest with
      | Some payload => Some payload
      | None => if event_is "finish" ev then Some (dict_get ev "translate_result") else None
      end
  end.

(** The text returned when the stream ends with no error and no result. *)
Definition no_result_text : string :=
  "Translation completed but no result information available".

(** ** The tool catalogue *)

(** A [Tool] of the protocol: its name, its description and the JSON schema
    of its arguments. *)
Record Tool : Type := {
  tool_name : string;
  tool_description : string;
  tool_inputSchema : json
}.

(** [list_tools]. *)
Definition list_tools : list Tool :=
  [ {| tool_name := "translate_pdf";
       tool_description :=
         "Translate a PDF document from one language to another. Supports bilingual (dual) and monolingual output modes. Uses AI-powered translation via OpenRouter or OpenAI.";
       tool_inputSchema :=
         JDict
           [ ("type", JStr "object");
             ("properties", JDict
                [
                  ("input_file",
                   JDict
                     [ ("type", JStr "string");
                       ("description",
                       JStr "Absolute path to the input PDF file to translate.") ]);
                  ("output_dir",
                   JDict
                     [ ("type", JStr "string");
                       ("description",
                       JStr "Directory where the translated PDF(s) will be saved. If not provided, uses the same directory as the input file.") ]);
                  ("lang_in",
                   JDict
                     [ ("type", JStr "string");
                       ("description",
                       JStr "Source language code (e.g., 'en' for English, 'zh' for Chinese). Default: 'en'");
                       ("default", JStr "en") ]);
                  ("lang_out",
                   JDict
                     [ ("type", JStr "string");
                       ("description",
                       JStr "Target language code (e.g., 'vi' for Vietnamese, 'zh' for Chinese, 'ja' for Japanese). Default: 'zh'");
                       ("default", JStr "zh") ]);
                  ("pages",
                   JDict
                     [ ("type", JStr "string");
                       ("description",
                       JStr "Pages to translate (e.g., '1,2,3', '1-5', '1,3-5,7'). If not set, translates all pages.") ]);
                  ("no_dual",
                   JDict
                     [ ("type", JStr "boolean");
                       ("description",
                       JStr "If true, do not output bilingual PDF (side-by-side original and translation). Default: false");
                       ("default", JBool false) ]);
                  ("no_mono",
                   JDict
                     [ ("type", JStr "boolean");
                       ("description",
                       JStr "If true, do not output monolingual translated PDF. Default: false");
                       ("default", JBool false) ]);
                  ("service",
                   JDict
                     [ ("type", JStr "string");
                       ("enum", JList [ JStr "openrouter"; JStr "openai" ]);
                       ("description",
                       JStr "Translation service to use. Default: 'openrouter' (uses env vars for API key)");
                       ("default", JStr "openrouter") ]);
                  ("model",
                   JDict
                     [ ("type", JStr "string");
                       ("description",
                       JStr "Model to use for translation. If not set, uses model from environment variable or default.") ]);
                  ("qps",
                   JDict
                     [ ("type", JStr "integer");
                       ("description",
                       JStr "Queries per second limit for translation API. Default: 4");
                       ("default", JInt 4) ]);
                  ("watermark",
                   JDict
                     [ ("type", JStr "boolean");
                       ("description",
                       JStr "Add watermark to output PDF. Default: true");
                       ("default", JBool true) ]) ]);
             ("required", JList [ JStr "input_file" ]) ] |};
    {| tool_name := "get_translation_status";
       tool_description :=
         "Get information about BabelDOC translation service configuration and supported languages.";
       tool_inputSchema :=
         JDict [ ("type", JStr "object"); ("properties", JDict []) ] |} ].

(** The tool of the catalogue with the given name. *)
Fixpoint find_tool (name : string) (tools : list Tool) : option Tool :=
  match tools with
  | [] => None
  | t :: rest => if String.eqb (tool_name t) name then Some t else find_tool name rest
  end.

(** Reading a schema: its properties, the default and the enumeration of a
    property, and the required names. *)
Definition schema_properties (schema : json) : list (string * json) :=
  match schema with
  | JDict fields =>
      match json_field "properties" fields with
      | Some (JDict properties) => properties
      | _ => []
      end
  | _ => []
  end.

Definition schema_default (schema : json) (k : string) : option json :=
  match json_field k (schema_properties schema) with
  | Some (JDict property) => json_field "default" property
  | _ => None
  end.

Definition schema_enum (schema : json) (k : string) : list json :=
  match json_field k (schema_properties schema) with
  | Some (JDict property) =>
      match json_field "enum" property with
      | Some (JList values) => values
      | _ => []
      end
  | _ => []
  end.

Definition schema_required (schema : json) : list json :=
  match schema with
  | JDict fields =>
      match json_field "required" fields with
      | Some (JList names) => names
      | _ => []
      end
  | _ => []
  end.

(** The schema of [translate_pdf] in the catalogue. *)
Definition translate_pdf_schema : json :=
  match find_tool "translate_pdf" list_tools with
  | Some t => tool_inputSchema t
  | None => JNull
  end.

(** The Python value of a JSON scalar. *)
Definition pyval_of_json (j : json) : option pyval :=
  match j with
  | JNull => Some PyNone
  | JBool b => Some (PyBool b)
  | JInt z => Some (PyInt z)
  | JStr s => Some (PyStr s)
  | _ => None
  end.

(** The names of the arguments that the schema of [translate_pdf] declares. *)
Definition declared_arguments : list string :=
  List.map fst (schema_properties translate_pdf_schema).

(** The translator that a call with the settings [s] constructs, and the
    job request it builds for the input [input_path] and the output
    directory [out]. *)
Definition translator_args (s : CallSettings) : TranslatorArgs := {|
  tr_lang_in := s_lang_in s;
  tr_lang_out := s_lang_out s;
  tr_model := s_model s;
  tr_base_url := s_base_url s;
  tr_api_key := s_api_key s;
  tr_ignore_cache := false;
  tr_enable_json_mode_if_requested := false;
  tr_send_dashscope_header := false;
  tr_send_temperature := true
|}.

Definition job_request (input_path : Path) (out : string) (s : CallSettings)
    : TranslationConfigArgs := {|
  tc_input_file := Path_str input_path;
  tc_pages := s_pages s;
  tc_output_dir := Path_str (Path_of out);
  tc_lang_in := s_lang_in s;
  tc_lang_out := s_lang_out s;
  tc_no_dual := s_no_dual s;
  tc_no_mono := s_no_mono s;
  tc_qps := s_qps s;
  tc_watermark_output_mode := if truthy (s_watermark s) then Watermarked else NoWatermark
|}.

(** The calls of a call that goes all the way, in their order; without an
    output directory that is a string, the first four. *)
Definition expected_calls (input_path : Path) (s : CallSettings) : list call :=
  ([ call_init; call_OpenAITranslator (translator_args s);
     call_set_translate_rate_limiter (s_qps s); call_load_onnx ]
   ++ match s_output_dir s with
      | PyStr out =>
          [ call_mkdir (Path_str (Path_of out));
            call_TranslationConfig (job_request input_path out s);
            call_async_translate (job_request input_path out s) ]
      | _ => []
      end)%list.

(** An engine whose initialisation, translator, rate limiter, layout model
    and job request never raise. *)
Definition engine_ready (engine : Engine) : Prop :=
  engine_init engine = None
  /\ (forall a, engine_OpenAITranslator engine a = None)
  /\ (forall qps, engine_set_translate_rate_limiter engine qps = None)
  /\ engine_load_onnx engine = None
  /\ (forall c, engine_TranslationConfig engine c = None).

(** The events that decide the result, and the line that the history keeps
    for a progress update. *)
Definition decisive (ev : event) : bool := event_is "error" ev || event_is "finish" ev.

Definition progress_line (ev : event) : string :=
  py_str (dict_get_default ev "stage" (PyStr "unknown")) ++ ": "
  ++ py_str (dict_get_default ev "stage_current" (PyInt 0)) ++ "/"
  ++ py_str (dict_get_default ev "stage_total" (PyInt 100)).

(** The environment variables of a provider. *)
Definition provider_variables (service : pyval) : list string :=
  if py_eq_str service "openrouter" then
    [ "OPENROUTER_API_KEY"; "OPENROUTER_BASE_URL"; "OPENROUTER_MODEL" ]
  else if py_eq_str service "openai" then
    [ "OPENAI_API_KEY"; "OPENAI_BASE_URL"; "OPENAI_MODEL" ]
  else [].

(** ** A machine to run the server on *)

Module Demo.

(** A disk with a regular file [/f], a directory [/vault] that may be
    searched and not listed, and a directory [/docs] that holds five
    documents, one with an upper-case extension and two with accents in
    their names, decomposed in part. *)
Definition disk : TreeFS := {|
  tree_root :=
    Dir true
      [ ("f", File);
        ("vault", Dir false [ ("ledger.pdf", File) ]);
        ("docs", Dir true
           [ ("paper.pdf", File);
             ("SCAN.PDF", File);
             ("notes.txt", File);
             ("caf" ++ e_then_acute ++ ".pdf", File);
             (e_acute ++ "t" ++ e_then_acute ++ ".pdf", File) ]) ];
  tree_cwd := []
|}.

Definition world : World TreeFS := mkWorld disk [].

(** The engine of scenario C: two progress updates, then the result. *)
Definition engine : Engine := {|
  engine_init := None;
  engine_OpenAITranslator _ := None;
  engine_set_translate_rate_limiter _ := None;
  engine_load_onnx := None;
  engine_TranslationConfig _ := None;
  engine_async_translate _ :=
    ([ {[ "type" := PyStr "progress_update"; "stage" := PyStr "parse";
          "stage_current" := PyInt 1; "stage_total" := PyInt 2 ]};
       {[ "type" := PyStr "progress_update"; "stage" := PyStr "parse";
          "stage_current" := PyInt 2; "stage_total" := PyInt 2 ]};
       {[ "type" := PyStr "finish"; "translate_result" := PyObj "TranslateResult" true ]} ],
     None);
  engine_token_count := PyInt 0;
  engine_prompt_token_count := PyInt 0;
  engine_completion_token_count := PyInt 0
|}.

(** An engine whose initialisation raises (scenario E). *)
Definition broken_engine : Engine := {|
  engine_init := Some (Exn "RuntimeError" "model cache is not writable");
  engine_OpenAITranslator _ := None;
  engine_set_translate_rate_limiter _ := None;
  engine_load_onnx := None;
  engine_TranslationConfig _ := None;
  engine_async_translate _ := ([], None);
  engine_token_count := PyInt 0;
  engine_prompt_token_count := PyInt 0;
  engine_completion_token_count := PyInt 0
|}.

Definition environ : gmap string string :=
  {[ "OPENROUTER_API_KEY" := "sk-or-1"; "OPENAI_API_KEY" := "sk-oa-1";
     "OPENROUTER_MODEL" := "vendor/model-a" ]}.

Definition other_keys : gmap string string :=
  {[ "OPENROUTER_API_KEY" := "sk-or-2"; "OPENAI_API_KEY" := "sk-oa-2";
     "OPENROUTER_MODEL" := "vendor/model-a" ]}.

Definition translate := translate_pdf (RT := e_acute_runtime) (FSI := TreeFS_FileSystem).
Definition dispatch := call_tool (RT := e_acute_runtime) (FSI := TreeFS_FileSystem).
Definition resolve := resolve_path_with_unicode_normalization
  (RT := e_acute_runtime) (FSI := TreeFS_FileSystem).
Definition status :=
  get_translation_status (RT := e_acute_runtime) (FS := TreeFS).

(** The call for the document [/docs/paper.pdf], all else by default. *)
Definition paper_call : gmap string pyval := {[ "input_file" := PyStr "/docs/paper.pdf" ]}.

(** A call that names its model and its target language. *)
Definition arguments : gmap string pyval :=
  {[ "input_file" := PyStr "/docs/paper.pdf"; "model" := PyStr "my/model";
     "lang_out" := PyStr "vi" ]}.

(** The settings of that call under [environ]. *)
Definition settings : CallSettings := {|
  s_service := PyStr "openrouter";
  s_lang_in := PyStr "en";
  s_lang_out := PyStr "vi";
  s_pages := PyNone;
  s_no_dual := PyBool false;
  s_no_mono := PyBool false;
  s_qps := PyInt 4;
  s_watermark := PyBool true;
  s_output_dir := PyStr "/docs";
  s_api_key := PyStr "sk-or-1";
  s_model := PyStr "my/model";
  s_base_url := PyStr "https://openrouter.ai/api/v1"
|}.

(** An engine in the manner of [engine] that yields the events [evs] and
    then is exhausted. *)
Definition engine_yielding (evs : list event) : Engine := {|
  engine_init := None;
  engine_OpenAITranslator _ := None;
  engine_set_translate_rate_limiter _ := None;
  engine_load_onnx := None;
  engine_TranslationConfig _ := None;
  engine_async_translate _ := (evs, None);
  engine_token_count := PyInt 0;
  engine_prompt_token_count := PyInt 0;
  engine_completion_token_count := PyInt 0
|}.

(** Two errors around a progress update, and a result at the end. *)
Definition two_errors : list event :=
  [ {[ "type" := PyStr "error"; "error" := PyStr "page 3 is unreadable" ]};
    {[ "type" := PyStr "progress_update" ]};
    {[ "type" := PyStr "error"; "error" := PyStr "quota exceeded" ]};
    {[ "type" := PyStr "finish"; "translate_result" := PyObj "TranslateResult" true ]} ].

(** A stream that finishes and carries no result. *)
Definition finish_without_result : list event := [ {[ "type" := PyStr "finish" ]} ].

(** The job request of the call [{input_file: /docs/paper.pdf}]. *)
Definition config : TranslationConfigArgs := {|
  tc_input_file := "/docs/paper.pdf";
  tc_pages := PyNone;
  tc_output_dir := "/docs";
  tc_lang_in := PyStr "en";
  tc_lang_out := PyStr "zh";
  tc_no_dual := PyBool false;
  tc_no_mono := PyBool false;
  tc_qps := PyInt 4;
  tc_watermark_output_mode := Watermarked
|}.

End Demo.

(** ** More calls for the machine *)

Module Cases.

(** The call for the paper with the service [openai]. *)
Definition openai_call : gmap string pyval :=
  <["service" := PyStr "openai"]> Demo.paper_call.

(** The call for the paper with the default rate written out, with a null
    model, and with an argument that the schema does not declare. *)
Definition qps_call : gmap string pyval := <["qps" := PyInt 4]> Demo.paper_call.
Definition null_model_call : gmap string pyval := <["model" := PyNone]> Demo.paper_call.
Definition verbose_call : gmap string pyval := <["verbose" := PyBool true]> Demo.paper_call.

(** An engine that is ready and whose stream yields [evs] and then is
    exhausted or raises. *)
Definition engine_streaming (evs : list event) (stop : option exn) : Engine := {|
  engine_init := None;
  engine_OpenAITranslator _ := None;
  engine_set_translate_rate_limiter _ := None;
  engine_load_onnx := None;
  engine_TranslationConfig _ := None;
  engine_async_translate _ := (evs, stop);
  engine_token_count := PyInt 1200;
  engine_prompt_token_count := PyInt 900;
  engine_completion_token_count := PyInt 300
|}.

(** A stream with an event that has no type between two that have one. *)
Definition untyped_stream : list event :=
  [ {[ "type" := PyStr "progress_update"; "stage" := PyStr "parse" ]};
    {[ "stage" := PyStr "translate" ]};
    {[ "type" := PyStr "finish"; "translate_result" := PyObj "TranslateResult" true ]} ].

(** A stream that yields a result and then raises. *)
Definition result_then_reset : list event :=
  [ {[ "type" := PyStr "finish"; "translate_result" := PyObj "TranslateResult" true ]} ].

Definition connection_reset : exn := Exn "ConnectionError" "connection reset by peer".

(** Progress updates, an event of an unknown kind, and a result. *)
Definition chatty_stream : list event :=
  [ {[ "type" := PyStr "progress_update"; "stage" := PyStr "parse";
       "stage_current" := PyInt 1; "stage_total" := PyInt 3 ]};
    {[ "type" := PyStr "heartbeat" ]};
    {[ "type" := PyStr "progress_update"; "stage" := PyStr "render" ]};
    {[ "type" := PyStr "finish"; "translate_result" := PyObj "TranslateResult" true ]} ].

(** A call that names its output directory, its pages and its rate and
    turns the watermark off. *)
Definition tuned_call : gmap string pyval :=
  {[ "input_file" := PyStr "/docs/paper.pdf"; "output_dir" := PyStr "/out/2024";
     "pages" := PyStr "1-3"; "qps" := PyInt 2; "watermark" := PyBool false ]}.

(** The translator of [openai_call] under [Demo.environ]. *)
Definition openai_translator : TranslatorArgs := {|
  tr_lang_in := PyStr "en";
  tr_lang_out := PyStr "zh";
  tr_model := PyStr "gpt-4o-mini";
  tr_base_url := PyNone;
  tr_api_key := PyStr "sk-oa-1";
  tr_ignore_cache := false;
  tr_enable_json_mode_if_requested := false;
  tr_send_dashscope_header := false;
  tr_send_temperature := true
|}.

(** The job request of [tuned_call]. *)
Definition tuned_request : TranslationConfigArgs := {|
  tc_input_file := "/docs/paper.pdf";
  tc_pages := PyStr "1-3";
  tc_output_dir := "/out/2024";
  tc_lang_in := PyStr "en";
  tc_lang_out := PyStr "zh";
  tc_no_dual := PyBool false;
  tc_no_mono := PyBool false;
  tc_qps := PyInt 2;
  tc_watermark_output_mode := NoWatermark
|}.

(** An environment with the variables of OpenRouter as in [Demo.environ]
    and other variables of OpenAI. *)
Definition other_openai : gmap string string :=
  {[ "OPENROUTER_API_KEY" := "sk-or-1"; "OPENROUTER_MODEL" := "vendor/model-a";
     "OPENAI_API_KEY" := "sk-oa-9"; "OPENAI_BASE_URL" := "https://example.org/v1";
     "OPENAI_MODEL" := "gpt-x"; "HOME" := "/root" ]}.

End Cases.

(** * Properties *)

(** ** Dispatch *)

Section Dispatch.

Context {RT : Runtime} {FS : Type} {FSI : FileSystem FS}.
Variable engine : Engine.
Variable environ : gmap string string.

(** C7.  Dispatch is total on unknown names: for every tool name other than
    [translate_pdf] and [get_translation_status], and every argument bag,
    [call_tool] returns the text [Unknown tool: <name>]; it does not raise
    and makes no external call. *)
Theorem call_tool_unknown (name : string) (arguments : gmap string pyval) (w : World FS) :
  name <> "translate_pdf" ->
  name <> "get_translation_status" ->
  call_tool engine environ name arguments w
  = (Ret (text_result ("Unknown tool: " ++ name)), w).
Proof.
  intros Htranslate Hstatus. unfold call_tool.
  destruct (String.eqb_spec name "translate_pdf") as [->|_]; [contradiction|].
  destruct (String.eqb_spec name "get_translation_status") as [->|_]; [contradiction|].
  reflexivity.
Qed.

End Dispatch.

Lemma call_tool_unknown_witness :
  Demo.dispatch Demo.engine Demo.environ "delete_pdf"
    {[ "input_file" := PyStr "/docs/paper.pdf" ]} Demo.world
  = (Ret (text_result "Unknown tool: delete_pdf"), Demo.world).
Proof.
  exact (call_tool_unknown (RT := e_acute_runtime) (FSI := TreeFS_FileSystem)
           Demo.engine Demo.environ "delete_pdf"
           {[ "input_file" := PyStr "/docs/paper.pdf" ]} Demo.world
           ltac:(discriminate) ltac:(discriminate)).
Defined.

(** ** The status report *)

Section Status.

Context {RT : Runtime} {FS : Type}.

Lemma environ_get_default_agree (environ environ' : gmap string string) (k dflt : string) :
  environ !! k = environ' !! k ->
  environ_get_default environ k dflt = environ_get_default environ' k dflt.
Proof. unfold environ_get_default. intros ->. reflexivity. Qed.

(** What the report says depends on a key only through its truth value. *)
Lemma translation_status_flags_only (environ environ' : gmap string string) :
  (forall k, k <> "OPENROUTER_API_KEY" -> k <> "OPENAI_API_KEY" ->
             environ !! k = environ' !! k) ->
  truthy (environ_get environ "OPENROUTER_API_KEY")
  = truthy (environ_get environ' "OPENROUTER_API_KEY") ->
  truthy (environ_get environ "OPENAI_API_KEY")
  = truthy (environ_get environ' "OPENAI_API_KEY") ->
  translation_status environ = translation_status environ'.
Proof.
  intros Hother Hrouter Hopenai.
  unfold translation_status, get_env_config. cbn [openrouter_api_key openrouter_model
    openrouter_base_url openai_api_key openai_model openai_base_url].
  rewrite Hrouter, Hopenai.
  rewrite (environ_get_default_agree environ environ' "OPENROUTER_MODEL")
    by (apply Hother; discriminate).
  rewrite (environ_get_default_agree environ environ' "OPENROUTER_BASE_URL")
    by (apply Hother; discriminate).
  rewrite (environ_get_default_agree environ environ' "OPENAI_MODEL")
    by (apply Hother; discriminate).
  reflexivity.
Qed.

(** C8.  [get_translation_status] is a function of the environment alone
    (the arguments and the world play no part, and no external call is
    made), and of each API key it uses the truth value only: two
    environments that agree on every other variable and on whether each key
    is set to a non-empty value give the same result, so the value of a key
    is not in the text.  The list of supported languages is the fixed list
    of thirteen entries.  With no variable set, both [openrouter_configured]
    and [openai_configured] are false. *)
Theorem get_translation_status_flags_only
    (environ environ' : gmap string string) (arguments arguments' : gmap string pyval)
    (w : World FS) :
  ((forall k, k <> "OPENROUTER_API_KEY" -> k <> "OPENAI_API_KEY" ->
              environ !! k = environ' !! k) ->
   truthy (environ_get environ "OPENROUTER_API_KEY")
   = truthy (environ_get environ' "OPENROUTER_API_KEY") ->
   truthy (environ_get environ "OPENAI_API_KEY")
   = truthy (environ_get environ' "OPENAI_API_KEY") ->
   get_translation_status environ arguments w
   = get_translation_status environ' arguments' w)
  /\ get_translation_status environ arguments w
     = (Ret (text_result (json_dumps (JDict (translation_status environ)))), w)
  /\ json_field "supported_languages" (translation_status environ)
     = Some (JList (List.map JStr supported_languages))
  /\ List.length supported_languages = 13
  /\ json_field "openrouter_configured" (translation_status ∅) = Some (JBool false)
  /\ json_field "openai_configured" (translation_status ∅) = Some (JBool false).
Proof.
  repeat split.
  intros Hother Hrouter Hopenai. unfold get_translation_status, ret.
  rewrite (translation_status_flags_only environ environ' Hother Hrouter Hopenai).
  reflexivity.
Qed.

End Status.

Lemma get_translation_status_flags_only_witness :
  Demo.status Demo.environ ∅ Demo.world = Demo.status Demo.other_keys ∅ Demo.world.
Proof.
  refine (proj1 (get_translation_status_flags_only (RT := e_acute_runtime)
                   Demo.environ Demo.other_keys ∅ ∅ Demo.world) _ _ _).
  - intros k Hrouter Hopenai. unfold Demo.environ, Demo.other_keys.
    rewrite !lookup_insert_ne by congruence. reflexivity.
  - reflexivity.
  - reflexivity.
Defined.

(** ** pathlib: parsing what was printed *)

Lemma str_split_nonempty (sep : ascii) (s : string) : str_split sep s <> [].
Proof.
  destruct s as [|c s]; cbn [str_split]; [discriminate|].
  destruct (Ascii.eqb c sep); [discriminate|].
  destruct (str_split sep s); discriminate.
Qed.

Lemma no_slash_cons (c : ascii) (x : string) :
  no_slash (String c x) -> Ascii.eqb c "/" = false /\ no_slash x.
Proof.
  unfold no_slash. cbn [str_split].
  destruct (Ascii.eqb c "/"); [discriminate|].
  destruct (str_split "/" x) as [|h t] eqn:Hsplit; [intros _|intros [= -> ->]];
    [exfalso; exact (str_split_nonempty _ _ Hsplit)|].
  split; reflexivity.
Qed.

Lemma str_split_components (s : string) : Forall no_slash (str_split "/" s).
Proof.
  induction s as [|c s IH]; cbn [str_split].
  - constructor; [reflexivity|constructor].
  - destruct (Ascii.eqb c "/") eqn:Hc.
    + constructor; [reflexivity|exact IH].
    + destruct (str_split "/" s) as [|h t]; [constructor; [|constructor]|].
      * unfold no_slash. cbn [str_split]. rewrite Hc. reflexivity.
      * inversion IH as [|? ? Hh Ht]; subst. constructor; [|exact Ht].
        unfold no_slash in *. cbn [str_split]. rewrite Hc, Hh. reflexivity.
Qed.

Lemma str_split_app (x rest : string) :
  no_slash x -> str_split "/" (x ++ "/" ++ rest) = x :: str_split "/" rest.
Proof.
  induction x as [|c x IH]; intros Hx.
  - reflexivity.
  - apply no_slash_cons in Hx as [Hc Hx].
    change (String c x ++ "/" ++ rest) with (String c (x ++ "/" ++ rest)).
    cbn [str_split]. rewrite Hc, (IH Hx). reflexivity.
Qed.

Lemma str_split_concat (x : string) (t : list string) :
  Forall no_slash (x :: t) -> str_split "/" (String.concat "/" (x :: t)) = x :: t.
Proof.
  revert x. induction t as [|y t IH]; intros x Hall.
  - inversion Hall; subst. assumption.
  - inversion Hall as [|? ? Hx Hrest]; subst.
    change (String.concat "/" (x :: y :: t)) with (x ++ "/" ++ String.concat "/" (y :: t)).
    rewrite (str_split_app _ _ Hx), (IH y Hrest). reflexivity.
Qed.

(** A kept component that holds no separator starts with another
    character, and so does what is printed for a list that starts with it. *)
Lemma concat_head (x : string) (t : list string) :
  keep_component x = true -> no_slash x ->
  exists c body, Ascii.eqb c "/" = false /\ String.concat "/" (x :: t) = String c body.
Proof.
  intros Hkeep Hx. destruct x as [|c x]; [discriminate Hkeep|].
  apply no_slash_cons in Hx as [Hc _]. exists c.
  destruct t as [|y t]; [exists x|exists (x ++ "/" ++ String.concat "/" (y :: t))];
    split; solve [assumption|reflexivity].
Qed.

Lemma filter_all {A} (f : A -> bool) (l : list A) :
  Forall (fun x => f x = true) l -> List.filter f l = l.
Proof.
  induction 1 as [|x l Hx _ IH]; [reflexivity|]. cbn [List.filter]. rewrite Hx, IH.
  reflexivity.
Qed.

(** [Path(str(p)) == p]. *)
Lemma Path_of_str (p : Path) : wf_path p -> Path_of (Path_str p) = p.
Proof.
  destruct p as [r t]. unfold wf_path. cbn [p_root p_tail]. intros [Hroot Hall].
  destruct t as [|x t].
  - destruct Hroot as [->|[->| ->]]; reflexivity.
  - inversion Hall as [|? ? [Hkeep Hx] Hrest]; subst.
    destruct (concat_head x t Hkeep Hx) as (c & body & Hc & Hbody).
    assert (Hsplit : List.filter keep_component (str_split "/" (String.concat "/" (x :: t)))
                     = x :: t).
    { rewrite str_split_concat.
      - apply filter_all. eapply Forall_impl; [exact Hall|]. intros ? [? _]. assumption.
      - eapply Forall_impl; [exact Hall|]. intros ? [_ ?]. assumption. }
    unfold Path_of, Path_str. cbn [p_root p_tail].
    destruct Hroot as [->|[->| ->]].
    + change ("" ++ String.concat "/" (x :: t)) with (String.concat "/" (x :: t)).
      rewrite Hbody at 1. unfold splitroot. rewrite Hc, <- Hbody, Hsplit. reflexivity.
    + change ("/" ++ String.concat "/" (x :: t))
        with (String "/" (String.concat "/" (x :: t))).
      rewrite Hbody at 1. unfold splitroot. rewrite Hc, <- Hbody.
      change (Ascii.eqb "/" "/") with true. cbv iota. rewrite Hsplit. reflexivity.
    + change ("//" ++ String.concat "/" (x :: t))
        with (String "/" (String "/" (String.concat "/" (x :: t)))).
      rewrite Hbody at 1. unfold splitroot. rewrite Hc, <- Hbody.
      change (Ascii.eqb "/" "/") with true. cbv iota. rewrite Hsplit. reflexivity.
Qed.

Lemma splitroot_root (s : string) :
  fst (splitroot s) = "" \/ fst (splitroot s) = "/" \/ fst (splitroot s) = "//".
Proof.
  unfold splitroot.
  destruct s as [|c0 [|c1 [|c2 s]]];
    repeat match goal with |- context [Ascii.eqb ?c "/"] => destruct (Ascii.eqb c "/") end;
    cbn [fst]; tauto.
Qed.

Lemma wf_Path_of (s : string) : wf_path (Path_of s).
Proof.
  unfold Path_of. pose proof (splitroot_root s) as Hroot.
  destruct (splitroot s) as [r rel]. cbn [fst] in Hroot.
  split; [exact Hroot|]. cbn [p_tail].
  pose proof (str_split_components rel) as Hall.
  induction Hall as [|x l Hx _ IH]; cbn [List.filter]; [constructor|].
  destruct (keep_component x) eqn:Hkeep; [constructor; [split; assumption|exact IH]|exact IH].
Qed.

Lemma Forall_removelast {A} (P : A -> Prop) (l : list A) :
  Forall P l -> Forall P (List.removelast l).
Proof.
  induction 1 as [|x l Hx Hl IH]; [constructor|].
  cbn [List.removelast]. destruct l; [constructor|]. constructor; assumption.
Qed.

Lemma wf_Path_parent (p : Path) : wf_path p -> wf_path (Path_parent p).
Proof.
  intros [Hroot Hall]. unfold Path_parent.
  destruct (p_tail p) eqn:Htail; [split; [exact Hroot|rewrite Htail; constructor]|].
  split; [exact Hroot|]. cbn [p_tail]. apply Forall_removelast. exact Hall.
Qed.

Lemma Path_parent_child (p : Path) (name : string) :
  Path_parent (Path_child p name) = p.
Proof.
  destruct p as [r t]. unfold Path_parent, Path_child. cbn [p_root p_tail].
  rewrite List.removelast_last. destruct t; reflexivity.
Qed.

(** ** The path resolver *)

Section Resolver.

Context {RT : Runtime} {FS : Type} {FSI : FileSystem FS}.

Lemma Path_name_child (parent : Path) (name : string) :
  Path_name (Path_child parent name) = name.
Proof. unfold Path_name, Path_child. cbn [p_tail]. apply List.last_last. Qed.

(** The two tests of the loop body together are the four comparisons. *)
Lemma match_children_cons (parent : Path) (target name : string) (rest : list string) :
  match_children parent (normalize_NFC target) (normalize_NFD target) (name :: rest)
  = if bool_decide (name_matches target name) then Some (Path_child parent name)
    else match_children parent (normalize_NFC target) (normalize_NFD target) rest.
Proof.
  cbn [match_children]. rewrite Path_name_child. unfold name_matches.
  destruct (String.eqb_spec (normalize_NFC name) (normalize_NFC target)) as [E1|N1];
    cbn [orb]; [rewrite bool_decide_eq_true_2 by tauto; reflexivity|].
  destruct (String.eqb_spec (normalize_NFD name) (normalize_NFD target)) as [E2|N2];
    cbn [orb]; [rewrite bool_decide_eq_true_2 by tauto; reflexivity|].
  destruct (String.eqb_spec (normalize_NFC name) (normalize_NFD target)) as [E3|N3];
    cbn [orb]; [rewrite bool_decide_eq_true_2 by tauto; reflexivity|].
  destruct (String.eqb_spec (normalize_NFD name) (normalize_NFC target)) as [E4|N4];
    cbn [orb]; [rewrite bool_decide_eq_true_2 by tauto; reflexivity|].
  rewrite bool_decide_eq_false_2 by tauto. reflexivity.
Qed.

Lemma match_children_first (parent : Path) (target : string)
    (before : list string) (name : string) (after : list string) :
  name_matches target name ->
  (forall n, In n before -> ~ name_matches target n) ->
  match_children parent (normalize_NFC target) (normalize_NFD target)
    (before ++ name :: after)%list
  = Some (Path_child parent name).
Proof.
  intros Hname. induction before as [|b before IH]; intros Hbefore.
  - cbn [app]. rewrite match_children_cons, bool_decide_eq_true_2 by assumption.
    reflexivity.
  - change ((b :: before) ++ name :: after)%list with (b :: (before ++ name :: after))%list.
    rewrite match_children_cons, bool_decide_eq_false_2 by (apply Hbefore; left; reflexivity).
    apply IH. intros n Hn. apply Hbefore. right. exact Hn.
Qed.

Lemma match_children_none (parent : Path) (target : string) (names : list string) :
  (forall n, In n names -> ~ name_matches target n) ->
  match_children parent (normalize_NFC target) (normalize_NFD target) names = None.
Proof.
  induction names as [|b names IH]; intros Hnames; [reflexivity|].
  rewrite match_children_cons, bool_decide_eq_false_2 by (apply Hnames; left; reflexivity).
  apply IH. intros n Hn. apply Hnames. right. exact Hn.
Qed.

Lemma match_children_some (parent : Path) (nfc nfd : string) (names : list string)
    (found : Path) :
  match_children parent nfc nfd names = Some found ->
  exists name, found = Path_child parent name.
Proof.
  induction names as [|name names IH]; cbn [match_children]; [discriminate|].
  destruct (_ || _); [intros [= <-]; exists name; reflexivity|].
  destruct (_ || _); [intros [= <-]; exists name; reflexivity|exact IH].
Qed.

(** The parent of what the resolver returns is a path that [Path] builds. *)
Lemma resolve_path_parent_wf (file_path : string) (fs : FS) (found : Path) :
  resolve_path_with_unicode_normalization file_path fs = Ret (Some found) ->
  wf_path (Path_parent found).
Proof.
  unfold resolve_path_with_unicode_normalization.
  destruct (fs_exists fs (Path_str (Path_of file_path))) as [[]|]; cbn [res_bind];
    [intros [= <-]; apply wf_Path_parent, wf_Path_of| |discriminate].
  destruct (fs_exists fs (Path_str (Path_of (normalize_NFC file_path)))) as [[]|];
    cbn [res_bind]; [intros [= <-]; apply wf_Path_parent, wf_Path_of| |discriminate].
  destruct (fs_exists fs (Path_str (Path_of (normalize_NFD file_path)))) as [[]|];
    cbn [res_bind]; [intros [= <-]; apply wf_Path_parent, wf_Path_of| |discriminate].
  destruct (fs_exists fs (Path_str (Path_parent (Path_of file_path)))) as [[]|];
    cbn [res_bind]; [|discriminate|discriminate].
  destruct (fs_listdir fs (Path_str (Path_parent (Path_of file_path)))) as [names|];
    cbn [res_bind]; [|discriminate].
  intros [= Hfound]. apply match_children_some in Hfound as [name ->].
  rewrite Path_parent_child. apply wf_Path_parent, wf_Path_of.
Qed.

(** C4, as amended.  The resolver applies its steps in order and the first
    that succeeds decides, as long as the existence checks and the listing
    it needs return: (1) the path as given, when it exists; (2) else the
    NFC-normalized path, when it exists; (3) else the NFD-normalized path,
    when it exists; (4) else, when the parent exists and its listing
    returns, the first listed child whose name matches the target name
    under one of the four comparisons of normal forms, and [None] when no
    child matches; (5) [None] when the parent does not exist.  By step 1
    the resolver is idempotent on existing paths: resolving what a path
    prints as gives that path again. *)
Theorem resolve_path_first_match (file_path : string) (fs : FS) :
  let path := Path_of file_path in
  let nfc_path := Path_of (normalize_NFC file_path) in
  let nfd_path := Path_of (normalize_NFD file_path) in
  let parent := Path_parent path in
  let none_exists :=
    fs_exists fs (Path_str path) = Ret false
    /\ fs_exists fs (Path_str nfc_path) = Ret false
    /\ fs_exists fs (Path_str nfd_path) = Ret false in
  (fs_exists fs (Path_str path) = Ret true ->
   resolve_path_with_unicode_normalization file_path fs = Ret (Some path))
  /\ (fs_exists fs (Path_str path) = Ret false ->
      fs_exists fs (Path_str nfc_path) = Ret true ->
      resolve_path_with_unicode_normalization file_path fs = Ret (Some nfc_path))
  /\ (fs_exists fs (Path_str path) = Ret false ->
      fs_exists fs (Path_str nfc_path) = Ret false ->
      fs_exists fs (Path_str nfd_path) = Ret true ->
      resolve_path_with_unicode_normalization file_path fs = Ret (Some nfd_path))
  /\ (forall names before name after,
        none_exists ->
        fs_exists fs (Path_str parent) = Ret true ->
        fs_listdir fs (Path_str parent) = Ret names ->
        names = (before ++ name :: after)%list ->
        name_matches (Path_name path) name ->
        (forall n, In n before -> ~ name_matches (Path_name path) n) ->
        resolve_path_with_unicode_normalization file_path fs
        = Ret (Some (Path_child parent name)))
  /\ (forall names,
        none_exists ->
        fs_exists fs (Path_str parent) = Ret true ->
        fs_listdir fs (Path_str parent) = Ret names ->
        (forall n, In n names -> ~ name_matches (Path_name path) n) ->
        resolve_path_with_unicode_normalization file_path fs = Ret None)
  /\ (none_exists ->
      fs_exists fs (Path_str parent) = Ret false ->
      resolve_path_with_unicode_normalization file_path fs = Ret None)
  /\ (forall found : Path,
        wf_path found ->
        fs_exists fs (Path_str found) = Ret true ->
        resolve_path_with_unicode_normalization (Path_str found) fs = Ret (Some found)).
Proof.
  cbv zeta. unfold resolve_path_with_unicode_normalization.
  split; [|split; [|split; [|split; [|split; [|split]]]]].
  7: { intros found Hwf Hfound. rewrite (Path_of_str found Hwf), Hfound. reflexivity. }
  - intros ->. reflexivity.
  - intros -> ->. reflexivity.
  - intros -> -> ->. reflexivity.
  - intros names before name after (-> & -> & ->) -> -> -> Hname Hbefore.
    cbn [res_bind]. f_equal. apply match_children_first; assumption.
  - intros names (-> & -> & ->) -> -> Hnames.
    cbn [res_bind]. f_equal. apply match_children_none; assumption.
  - intros (-> & -> & ->) ->. reflexivity.
Qed.

End Resolver.

(** The request names [caf<e-acute>.pdf] composed and the disk holds it
    decomposed: step 3.  The request names a file whose two accents are
    composed and the disk holds it with one of them decomposed: neither
    normal form of the request exists, and the listing of step 4 finds the
    file as the fifth child. *)
Lemma resolve_path_first_match_witness :
  Demo.resolve ("/docs/caf" ++ e_acute ++ ".pdf") Demo.disk
  = Ret (Some (Path_of ("/docs/caf" ++ e_then_acute ++ ".pdf")))
  /\ Demo.resolve ("/docs/" ++ e_acute ++ "t" ++ e_acute ++ ".pdf") Demo.disk
     = Ret (Some (Path_child (Path_of "/docs")
                    (e_acute ++ "t" ++ e_then_acute ++ ".pdf"))).
Proof.
  split.
  - exact (proj1 (proj2 (proj2
      (resolve_path_first_match (RT := e_acute_runtime) (FSI := TreeFS_FileSystem)
         ("/docs/caf" ++ e_acute ++ ".pdf") Demo.disk)))
      eq_refl eq_refl eq_refl).
  - refine (proj1 (proj2 (proj2 (proj2
      (resolve_path_first_match (RT := e_acute_runtime) (FSI := TreeFS_FileSystem)
         ("/docs/" ++ e_acute ++ "t" ++ e_acute ++ ".pdf") Demo.disk))))
      _ [ "paper.pdf"; "SCAN.PDF"; "notes.txt"; "caf" ++ e_then_acute ++ ".pdf" ]
      (e_acute ++ "t" ++ e_then_acute ++ ".pdf") [] _ eq_refl eq_refl eq_refl _ _).
    + repeat split.
    + left. reflexivity.
    + intros n [<-|[<-|[<-|[<-|[]]]]] [H|[H|[H|H]]]; vm_compute in H; discriminate H.
Defined.

(** The requested file is not in [/vault], a directory that exists and may
    not be listed: no form of the path exists, the parent exists, its
    listing raises, and so does the resolver, where nothing was found. *)
Lemma resolve_path_listing_raises :
  Demo.resolve "/vault/x.pdf" Demo.disk
  = Raise (Exn "PermissionError" "[Errno 13] Permission denied: '/vault'").
Proof. vm_compute. reflexivity. Qed.

(** ** Validation of the input file *)

Lemma ascii_lower_dot (c : ascii) : ascii_lower c = "."%char <-> c = "."%char.
Proof.
  split; [|intros ->; reflexivity].
  destruct c as [[] [] [] [] [] [] [] []]; vm_compute; intros H; congruence.
Qed.

Lemma ascii_lower_p (c : ascii) : ascii_lower c = "p"%char <-> c = "p"%char \/ c = "P"%char.
Proof.
  split; [|intros [->| ->]; reflexivity].
  destruct c as [[] [] [] [] [] [] [] []]; vm_compute; intros H;
    first [left; reflexivity | right; reflexivity | discriminate H].
Qed.

Lemma ascii_lower_d (c : ascii) : ascii_lower c = "d"%char <-> c = "d"%char \/ c = "D"%char.
Proof.
  split; [|intros [->| ->]; reflexivity].
  destruct c as [[] [] [] [] [] [] [] []]; vm_compute; intros H;
    first [left; reflexivity | right; reflexivity | discriminate H].
Qed.

Lemma ascii_lower_f (c : ascii) : ascii_lower c = "f"%char <-> c = "f"%char \/ c = "F"%char.
Proof.
  split; [|intros [->| ->]; reflexivity].
  destruct c as [[] [] [] [] [] [] [] []]; vm_compute; intros H;
    first [left; reflexivity | right; reflexivity | discriminate H].
Qed.

(** The suffixes that pass the test are the eight spellings of [.pdf]. *)
Lemma str_lower_pdf (suffix : string) :
  str_lower suffix = ".pdf"
  <-> In suffix [".pdf"; ".pdF"; ".pDf"; ".pDF"; ".Pdf"; ".PdF"; ".PDf"; ".PDF"].
Proof.
  split.
  - destruct suffix as [|c0 [|c1 [|c2 [|c3 [|c4 rest]]]]]; cbn [str_lower];
      intros H; try discriminate H.
    injection H as H0 H1 H2 H3.
    apply (proj1 (ascii_lower_dot c0)) in H0. apply (proj1 (ascii_lower_p c1)) in H1.
    apply (proj1 (ascii_lower_d c2)) in H2. apply (proj1 (ascii_lower_f c3)) in H3.
    subst c0. destruct H1 as [->| ->], H2 as [->| ->], H3 as [->| ->];
      cbn [In]; tauto.
  - cbn [In]. intros H.
    repeat (destruct H as [<-|H]; [reflexivity|]). contradiction.
Qed.

Section Validation.

Context {RT : Runtime} {FS : Type} {FSI : FileSystem FS}.
Variable engine : Engine.
Variable environ : gmap string string.

(** What [translate_pdf] does once its input file is resolved. *)
Lemma translate_pdf_resolved (arguments : gmap string pyval) (file_path : string)
    (input_path : Path) (w : World FS) :
  arguments !! "input_file" = Some (PyStr file_path) ->
  file_path <> "" ->
  resolve_path_with_unicode_normalization file_path (w_fs w) = Ret (Some input_path) ->
  translate_pdf engine environ arguments w
  = if String.eqb (str_lower (Path_suffix input_path)) ".pdf"
    then match resolve_settings environ arguments input_path with
         | inl early => (Ret early, w)
         | inr s => run_translation engine input_path s w
         end
    else (Ret (text_result "Error: File must be a PDF"), w).
Proof.
  intros Harg Hnonempty Hresolve.
  assert (Htruthy : truthy (PyStr file_path) = true)
    by (destruct file_path; [contradiction|reflexivity]).
  unfold translate_pdf, dict_get. rewrite Harg, Htruthy. cbn [negb].
  unfold bind, read_fs. rewrite Hresolve.
  destruct (String.eqb (str_lower (Path_suffix input_path)) ".pdf"); cbn [negb].
  - destruct (resolve_settings environ arguments input_path); reflexivity.
  - reflexivity.
Qed.

(** C10.  The file-type check compares the lowercased suffix of the
    resolved path with [.pdf], so it does not depend on the case of the
    extension: the suffixes that pass are the eight spellings of [.pdf],
    among them [.PDF] and [.Pdf].  A call whose resolved path has such a
    suffix goes on to the settings and the translation; any other resolved
    path gives the result [Error: File must be a PDF] and leaves the world
    as it was, so the engine is not called. *)
Theorem translate_pdf_suffix_check (arguments : gmap string pyval) (file_path : string)
    (input_path : Path) (w : World FS) :
  arguments !! "input_file" = Some (PyStr file_path) ->
  file_path <> "" ->
  resolve_path_with_unicode_normalization file_path (w_fs w) = Ret (Some input_path) ->
  (str_lower (Path_suffix input_path) = ".pdf"
   <-> In (Path_suffix input_path)
          [".pdf"; ".pdF"; ".pDf"; ".pDF"; ".Pdf"; ".PdF"; ".PDf"; ".PDF"])
  /\ (str_lower (Path_suffix input_path) = ".pdf" ->
      translate_pdf engine environ arguments w
      = match resolve_settings environ arguments input_path with
        | inl early => (Ret early, w)
        | inr s => run_translation engine input_path s w
        end)
  /\ (str_lower (Path_suffix input_path) <> ".pdf" ->
      translate_pdf engine environ arguments w
      = (Ret (text_result "Error: File must be a PDF"), w)).
Proof.
  intros Harg Hnonempty Hresolve.
  rewrite (translate_pdf_resolved arguments file_path input_path w Harg Hnonempty Hresolve).
  split; [apply str_lower_pdf|].
  split; intros Hsuffix.
  - rewrite Hsuffix. reflexivity.
  - destruct (String.eqb_spec (str_lower (Path_suffix input_path)) ".pdf");
      [contradiction|reflexivity].
Qed.

End Validation.

Lemma translate_pdf_suffix_check_witness :
  Demo.translate Demo.engine Demo.environ
    {[ "input_file" := PyStr "/docs/SCAN.PDF" ]} Demo.world
  = match resolve_settings Demo.environ {[ "input_file" := PyStr "/docs/SCAN.PDF" ]}
            (Path_of "/docs/SCAN.PDF") with
    | inl early => (Ret early, Demo.world)
    | inr s => run_translation (RT := e_acute_runtime) (FSI := TreeFS_FileSystem)
                 Demo.engine (Path_of "/docs/SCAN.PDF") s Demo.world
    end
  /\ Demo.translate Demo.engine Demo.environ
       {[ "input_file" := PyStr "/docs/notes.txt" ]} Demo.world
     = (Ret (text_result "Error: File must be a PDF"), Demo.world).
Proof.
  split.
  - exact (proj1 (proj2
      (translate_pdf_suffix_check (RT := e_acute_runtime) (FSI := TreeFS_FileSystem)
         Demo.engine Demo.environ {[ "input_file" := PyStr "/docs/SCAN.PDF" ]}
         "/docs/SCAN.PDF" (Path_of "/docs/SCAN.PDF") Demo.world
         eq_refl ltac:(discriminate) eq_refl)) eq_refl).
  - exact (proj2 (proj2
      (translate_pdf_suffix_check (RT := e_acute_runtime) (FSI := TreeFS_FileSystem)
         Demo.engine Demo.environ {[ "input_file" := PyStr "/docs/notes.txt" ]}
         "/docs/notes.txt" (Path_of "/docs/notes.txt") Demo.world
         eq_refl ltac:(discriminate) eq_refl)) ltac:(discriminate)).
Defined.

(** ** The settings of a call *)

Lemma py_eq_str_true (v : pyval) (s : string) : py_eq_str v s = true <-> v = PyStr s.
Proof.
  destruct v; cbn [py_eq_str]; try (split; [discriminate|discriminate]).
  rewrite String.eqb_eq. split; [intros ->; reflexivity|intros [= ->]; reflexivity].
Qed.

Lemma py_eq_str_false (v : pyval) (s : string) : py_eq_str v s = false <-> v <> PyStr s.
Proof.
  rewrite <- py_eq_str_true. destruct (py_eq_str v s); split; congruence.
Qed.

Section Settings.

Context {RT : Runtime} {FS : Type} {FSI : FileSystem FS}.
Variable engine : Engine.
Variable environ : gmap string string.

(** C6, as amended.  For every call that passes the validation of its input
    file (the resolver returns a path whose suffix lowercases to [.pdf]):
    when the service is [openrouter] (given or by default) and
    [OPENROUTER_API_KEY] is unset or empty, the result is the text
    [Error: OPENROUTER_API_KEY environment variable not set]; likewise for
    [openai] and [OPENAI_API_KEY]; and a service that is neither gives
    [Error: Unknown service: <service>. Use 'openrouter' or 'openai'].  In
    the three cases the world is returned as it was: no engine
    initialisation, translator construction or job was attempted. *)
Theorem translate_pdf_missing_key (arguments : gmap string pyval) (file_path : string)
    (input_path : Path) (w : World FS) :
  arguments !! "input_file" = Some (PyStr file_path) ->
  file_path <> "" ->
  resolve_path_with_unicode_normalization file_path (w_fs w) = Ret (Some input_path) ->
  str_lower (Path_suffix input_path) = ".pdf" ->
  let service := dict_get_default arguments "service" (PyStr "openrouter") in
  (service = PyStr "openrouter" ->
   truthy (environ_get environ "OPENROUTER_API_KEY") = false ->
   translate_pdf engine environ arguments w
   = (Ret (text_result "Error: OPENROUTER_API_KEY environment variable not set"), w))
  /\ (service = PyStr "openai" ->
      truthy (environ_get environ "OPENAI_API_KEY") = false ->
      translate_pdf engine environ arguments w
      = (Ret (text_result "Error: OPENAI_API_KEY environment variable not set"), w))
  /\ (service <> PyStr "openrouter" ->
      service <> PyStr "openai" ->
      translate_pdf engine environ arguments w
      = (Ret (text_result ("Error: Unknown service: " ++ py_str service
                           ++ ". Use 'openrouter' or 'openai'")), w)).
Proof.
  intros Harg Hnonempty Hresolve Hsuffix service.
  rewrite (translate_pdf_resolved engine environ arguments file_path input_path w
             Harg Hnonempty Hresolve), Hsuffix.
  change (".pdf" =? ".pdf")%string with true. cbv iota.
  unfold resolve_settings. fold service. cbv zeta.
  cbn [get_env_config openrouter_api_key openai_api_key].
  repeat split.
  - intros -> ->. reflexivity.
  - intros -> ->. reflexivity.
  - intros Hrouter Hopenai.
    apply py_eq_str_false in Hrouter, Hopenai. rewrite Hrouter, Hopenai. reflexivity.
Qed.

End Settings.

Lemma translate_pdf_missing_key_witness :
  Demo.translate Demo.engine ∅ {[ "input_file" := PyStr "/docs/paper.pdf" ]} Demo.world
  = (Ret (text_result "Error: OPENROUTER_API_KEY environment variable not set"), Demo.world)
  /\ Demo.translate Demo.engine ∅
       {[ "input_file" := PyStr "/docs/paper.pdf"; "service" := PyStr "openai" ]} Demo.world
     = (Ret (text_result "Error: OPENAI_API_KEY environment variable not set"), Demo.world)
  /\ Demo.translate Demo.engine Demo.environ
       {[ "input_file" := PyStr "/docs/paper.pdf"; "service" := PyStr "deepl" ]} Demo.world
     = (Ret (text_result "Error: Unknown service: deepl. Use 'openrouter' or 'openai'"),
        Demo.world).
Proof.
  split; [|split].
  - exact (proj1
      (translate_pdf_missing_key (RT := e_acute_runtime) (FSI := TreeFS_FileSystem)
         Demo.engine ∅ {[ "input_file" := PyStr "/docs/paper.pdf" ]}
         "/docs/paper.pdf" (Path_of "/docs/paper.pdf") Demo.world
         eq_refl ltac:(discriminate) eq_refl eq_refl) eq_refl eq_refl).
  - exact (proj1 (proj2
      (translate_pdf_missing_key (RT := e_acute_runtime) (FSI := TreeFS_FileSystem)
         Demo.engine ∅
         {[ "input_file" := PyStr "/docs/paper.pdf"; "service" := PyStr "openai" ]}
         "/docs/paper.pdf" (Path_of "/docs/paper.pdf") Demo.world
         eq_refl ltac:(discriminate) eq_refl eq_refl)) eq_refl eq_refl).
  - exact (proj2 (proj2
      (translate_pdf_missing_key (RT := e_acute_runtime) (FSI := TreeFS_FileSystem)
         Demo.engine Demo.environ
         {[ "input_file" := PyStr "/docs/paper.pdf"; "service" := PyStr "deepl" ]}
         "/docs/paper.pdf" (Path_of "/docs/paper.pdf") Demo.world
         eq_refl ltac:(discriminate) eq_refl eq_refl))
      ltac:(discriminate) ltac:(discriminate)).
Defined.

(** The call of scenario B as the specification writes it: the service is
    [openrouter], no variable is set, and no input file is given.  The
    result is about the input file and does not name the variable. *)
Lemma translate_pdf_key_check_after_input :
  (∅ : gmap string string) !! "OPENROUTER_API_KEY" = None
  /\ Demo.translate Demo.engine ∅ {[ "service" := PyStr "openrouter" ]} Demo.world
     = (Ret (text_result "Error: input_file is required"), Demo.world).
Proof. split; reflexivity. Qed.

(** ** Statelessness of the handlers *)

Section Stateless.

Context {RT : Runtime} {FS : Type} {FSI : FileSystem FS}.

Lemma stateless_ret {A} (a : A) : stateless (FS := FS) (ret a).
Proof. intros fs before. unfold ret. cbn. rewrite app_nil_r. reflexivity. Qed.

Lemma stateless_raise {A} (e : exn) : stateless (FS := FS) (A := A) (raise e).
Proof. intros fs before. unfold raise. cbn. rewrite app_nil_r. reflexivity. Qed.

Lemma stateless_lift {A} (r : res A) : stateless (FS := FS) (lift r).
Proof. intros fs before. unfold lift. cbn. rewrite app_nil_r. reflexivity. Qed.

Lemma stateless_read_fs {A} (f : FS -> res A) : stateless (read_fs f).
Proof. intros fs before. unfold read_fs. cbn. rewrite app_nil_r. reflexivity. Qed.

Lemma stateless_external (c : call) (answer : option exn) :
  stateless (FS := FS) (external c answer).
Proof. intros fs before. reflexivity. Qed.

Lemma stateless_mkdir (output_path : Path) : stateless (mkdir output_path).
Proof.
  intros fs before. unfold mkdir. cbn.
  destruct (fs_mkdir fs (Path_str output_path)); reflexivity.
Qed.

Lemma stateless_consume_stream (engine : Engine) (c : TranslationConfigArgs) :
  stateless (FS := FS) (consume_stream engine c).
Proof.
  intros fs before. unfold consume_stream. cbn.
  destruct (engine_async_translate engine c) as [evs stop].
  destruct (handle_events evs loop_start); [destruct stop|]; reflexivity.
Qed.

Lemma stateless_bind {A B} (m : M FS A) (k : A -> M FS B) :
  stateless m -> (forall a, stateless (k a)) -> stateless (bind m k).
Proof.
  intros Hm Hk fs before. unfold bind.
  rewrite (Hm fs before).
  destruct (m (mkWorld fs [])) as [[a|e] [fs1 calls1]]; cbn [fst snd w_fs w_calls].
  - rewrite (Hk a fs1 (before ++ calls1)%list), (Hk a fs1 calls1).
    cbn [fst snd w_fs w_calls]. rewrite app_assoc. reflexivity.
  - reflexivity.
Qed.

Lemma stateless_try_except {A} (m : M FS A) (h : exn -> M FS A) :
  stateless m -> (forall e, stateless (h e)) -> stateless (try_except m h).
Proof.
  intros Hm Hh fs before. unfold try_except.
  rewrite (Hm fs before).
  destruct (m (mkWorld fs [])) as [[a|e] [fs1 calls1]]; cbn [fst snd w_fs w_calls].
  - reflexivity.
  - rewrite (Hh e fs1 (before ++ calls1)%list), (Hh e fs1 calls1).
    cbn [fst snd w_fs w_calls]. rewrite app_assoc. reflexivity.
Qed.

Lemma stateless_run_translation (engine : Engine) (input_path : Path) (s : CallSettings) :
  stateless (run_translation engine input_path s).
Proof.
  unfold run_translation, translation_body.
  apply stateless_try_except; [|intros e; apply stateless_ret].
  repeat first
    [ apply stateless_bind; [|intros ?]
    | apply stateless_external
    | apply stateless_lift
    | apply stateless_mkdir
    | apply stateless_consume_stream
    | apply stateless_ret ].
Qed.

Lemma stateless_translate_pdf (engine : Engine) (environ : gmap string string)
    (arguments : gmap string pyval) :
  stateless (translate_pdf engine environ arguments).
Proof.
  unfold translate_pdf.
  destruct (negb (truthy (dict_get arguments "input_file"))); [apply stateless_ret|].
  apply stateless_bind.
  - destruct (dict_get arguments "input_file");
      first [apply stateless_read_fs | apply stateless_raise].
  - intros [input_path|]; [|apply stateless_ret].
    destruct (negb (str_lower (Path_suffix input_path) =? ".pdf")%string);
      [apply stateless_ret|].
    destruct (resolve_settings environ arguments input_path);
      [apply stateless_ret|apply stateless_run_translation].
Qed.

End Stateless.

(** ** Precedence of arguments, environment and defaults *)

Section Precedence.

Context {RT : Runtime} {FS : Type} {FSI : FileSystem FS}.
Variable engine : Engine.
Variable environ : gmap string string.

Lemma explicit_or_default_get (arguments : gmap string pyval) (k : string) (dflt : pyval) :
  explicit_or_default arguments k dflt (dict_get_default arguments k dflt).
Proof.
  unfold explicit_or_default, dict_get_default.
  destruct (arguments !! k); reflexivity.
Qed.

(** C5, as amended.  In the settings of a call, [service], [lang_in],
    [lang_out], [qps], [watermark], [no_dual] and [no_mono] are the
    argument when the call gives one and otherwise the hardcoded default
    ([openrouter], [en], [zh], 4, true, false, false); no environment
    variable is read for them.  The model is the [model] argument when it
    is truthy (given and not empty); otherwise it is the value of the
    provider's model variable, or the provider's hardcoded default when the
    variable is unset.  The base URL comes from the environment alone
    ([OPENROUTER_BASE_URL] with a hardcoded default, [OPENAI_BASE_URL]
    without one).  The settings are a function of the arguments, the
    environment and the input path, and the handler is stateless: its
    result and the calls it makes do not depend on the calls made before. *)
Theorem resolve_settings_precedence (arguments : gmap string pyval) (input_path : Path)
    (s : CallSettings) :
  resolve_settings environ arguments input_path = inr s ->
  explicit_or_default arguments "service" (PyStr "openrouter") (s_service s)
  /\ explicit_or_default arguments "lang_in" (PyStr "en") (s_lang_in s)
  /\ explicit_or_default arguments "lang_out" (PyStr "zh") (s_lang_out s)
  /\ explicit_or_default arguments "qps" (PyInt 4) (s_qps s)
  /\ explicit_or_default arguments "watermark" (PyBool true) (s_watermark s)
  /\ explicit_or_default arguments "no_dual" (PyBool false) (s_no_dual s)
  /\ explicit_or_default arguments "no_mono" (PyBool false) (s_no_mono s)
  /\ (truthy (dict_get arguments "model") = true -> s_model s = dict_get arguments "model")
  /\ (truthy (dict_get arguments "model") = false ->
      (s_service s = PyStr "openrouter" ->
       s_model s
       = environ_get_default environ "OPENROUTER_MODEL" "google/gemini-2.5-flash")
      /\ (s_service s = PyStr "openai" ->
          s_model s = environ_get_default environ "OPENAI_MODEL" "gpt-4o-mini"))
  /\ (s_service s = PyStr "openrouter" ->
      s_base_url s
      = environ_get_default environ "OPENROUTER_BASE_URL" "https://openrouter.ai/api/v1")
  /\ (s_service s = PyStr "openai" -> s_base_url s = environ_get environ "OPENAI_BASE_URL")
  /\ stateless (translate_pdf (FSI := FSI) engine environ arguments).
Proof.
  intros Hs.
  revert Hs. unfold resolve_settings. cbv zeta.
  destruct (py_eq_str _ "openrouter") eqn:Hrouter.
  - destruct (negb _); intros [= <-]; cbn [s_service s_lang_in s_lang_out s_qps
      s_watermark s_no_dual s_no_mono s_model s_base_url].
    apply py_eq_str_true in Hrouter.
    repeat (split; [apply explicit_or_default_get|]).
    cbn [get_env_config openrouter_model openrouter_base_url]. unfold py_or.
    split; [intros ->; reflexivity|].
    split; [intros ->; split; [reflexivity|rewrite Hrouter; discriminate]|].
    split; [reflexivity|].
    split; [rewrite Hrouter; discriminate|apply stateless_translate_pdf].
  - destruct (py_eq_str _ "openai") eqn:Hopenai; [|discriminate].
    destruct (negb _); intros [= <-]; cbn [s_service s_lang_in s_lang_out s_qps
      s_watermark s_no_dual s_no_mono s_model s_base_url].
    apply py_eq_str_true in Hopenai.
    repeat (split; [apply explicit_or_default_get|]).
    cbn [get_env_config openai_model openai_base_url]. unfold py_or.
    split; [intros ->; reflexivity|].
    split; [intros ->; split; [rewrite Hopenai; discriminate|reflexivity]|].
    split; [rewrite Hopenai; discriminate|].
    split; [reflexivity|apply stateless_translate_pdf].
Qed.

End Precedence.

Lemma resolve_settings_precedence_witness :
  s_model Demo.settings = PyStr "my/model"
  /\ explicit_or_default Demo.arguments "lang_out" (PyStr "zh") (s_lang_out Demo.settings)
  /\ explicit_or_default Demo.arguments "lang_in" (PyStr "en") (s_lang_in Demo.settings)
  /\ s_base_url Demo.settings = PyStr "https://openrouter.ai/api/v1".
Proof.
  pose proof (resolve_settings_precedence (RT := e_acute_runtime) (FSI := TreeFS_FileSystem)
                Demo.engine Demo.environ Demo.arguments (Path_of "/docs/paper.pdf")
                Demo.settings eq_refl)
    as (_ & Hin & Hout & _ & _ & _ & _ & Hmodel & _ & Hurl & _).
  split; [exact (Hmodel eq_refl)|].
  split; [exact Hout|].
  split; [exact Hin|].
  exact (Hurl eq_refl).
Defined.

(** The call gives the model as the empty string and [OPENROUTER_MODEL] is
    set: the model used is the one of the environment, not the argument. *)
Lemma resolve_settings_empty_model_argument :
  ({[ "model" := PyStr "" ]} : gmap string pyval) !! "model" = Some (PyStr "")
  /\ Demo.environ !! "OPENROUTER_MODEL" = Some "vendor/model-a"
  /\ s_model <$> settings_of (resolve_settings Demo.environ {[ "model" := PyStr "" ]}
                                (Path_of "/docs/paper.pdf"))
     = Some (PyStr "vendor/model-a").
Proof. repeat split. Qed.

(** ** The output directory *)

Section OutputDir.

Context {RT : Runtime} {FS : Type} {FSI : FileSystem FS}.
Variable engine : Engine.
Variable environ : gmap string string.

Lemma no_job_nil : no_job [].
Proof. intros c. split; intros []. Qed.

Ltac no_job_tac :=
  intros c; split; cbn [In]; intros H;
  repeat (destruct H as [H|H]; [discriminate H|]); exact H.

(** The calls of the [try] block: the job comes after the directory. *)
Lemma run_translation_calls (input_path : Path) (s : CallSettings) (fs : FS)
    (r : res CallToolResult) (w' : World FS) :
  run_translation engine input_path s (mkWorld fs []) = (r, w') ->
  no_job (w_calls w') /\ w_fs w' = fs
  \/ exists out,
       s_output_dir s = PyStr out
       /\ fs_mkdir fs (Path_str (Path_of out)) = Ret (w_fs w')
       /\ job_after_mkdir (Path_str (Path_of out)) (w_calls w').
Proof.
  unfold run_translation, translation_body, try_except, bind, external, lift, mkdir,
    consume_stream, ret. cbn [w_fs w_calls app].
  destruct (engine_init engine);
    [intros [= <- <-]; left; split; [no_job_tac|reflexivity]|].
  destruct (engine_OpenAITranslator engine _);
    [intros [= <- <-]; left; split; [no_job_tac|reflexivity]|].
  destruct (engine_set_translate_rate_limiter engine _);
    [intros [= <- <-]; left; split; [no_job_tac|reflexivity]|].
  destruct (engine_load_onnx engine);
    [intros [= <- <-]; left; split; [no_job_tac|reflexivity]|].
  destruct (s_output_dir s) as [| | |out|] eqn:Hout; cbn [Path_ctor];
    try (intros [= <- <-]; left; split; [no_job_tac|reflexivity]).
  destruct (fs_mkdir fs (Path_str (Path_of out))) as [fs'|e] eqn:Hmkdir;
    [|intros [= <- <-]; left; split; [no_job_tac|reflexivity]].
  cbn [w_fs w_calls app].
  destruct (engine_TranslationConfig engine _) eqn:Hconfig.
  - intros [= <- <-]. right. exists out. cbn [w_fs w_calls].
    split; [reflexivity|]. split; [exact Hmkdir|].
    eexists _, _, _, []. split; [|split; [reflexivity|left; reflexivity]]. reflexivity.
  - destruct (engine_async_translate engine _) as [evs stop].
    cbn [w_fs w_calls app].
    destruct (handle_events evs loop_start); [destruct stop|];
      intros [= <- <-]; right; exists out; cbn [w_fs w_calls];
      (split; [reflexivity|]); (split; [exact Hmkdir|]);
      eexists _, _, _, [_]; (split; [|split; [reflexivity|right; reflexivity]]); reflexivity.
Qed.

Lemma resolve_settings_output_dir (arguments : gmap string pyval) (input_path : Path)
    (s : CallSettings) :
  resolve_settings environ arguments input_path = inr s ->
  s_output_dir s
  = py_or (dict_get arguments "output_dir") (PyStr (Path_str (Path_parent input_path))).
Proof.
  unfold resolve_settings. cbv zeta.
  destruct (py_eq_str _ "openrouter"); [destruct (negb _); [discriminate|]|].
  - intros [= <-]. reflexivity.
  - destruct (py_eq_str _ "openai"); [|discriminate].
    destruct (negb _); [discriminate|]. intros [= <-]. reflexivity.
Qed.

(** C9.  When the [output_dir] argument is absent, [None] or the empty
    string, the output directory of the call is the parent directory of the
    resolved input file.  Whatever the directory, a call either builds no
    job request and starts no job, or it made the directory with its
    parents, and that succeeded, before it built the request for that
    directory and started the job: the calls it made are, in order, the
    initialisation of the engine, the translator, the rate limiter, the
    layout model, the [mkdir], the job request and the job. *)
Theorem translate_pdf_output_dir (arguments : gmap string pyval) (fs : FS)
    (before : list call) (r : res CallToolResult) (w' : World FS) :
  translate_pdf engine environ arguments (mkWorld fs before) = (r, w') ->
  exists new,
    w_calls w' = (before ++ new)%list
    /\ (no_job new
        \/ exists file_path input_path out,
             arguments !! "input_file" = Some (PyStr file_path)
             /\ resolve_path_with_unicode_normalization file_path fs = Ret (Some input_path)
             /\ py_or (dict_get arguments "output_dir")
                      (PyStr (Path_str (Path_parent input_path))) = PyStr out
             /\ (arguments !! "output_dir" = None
                 \/ arguments !! "output_dir" = Some PyNone
                 \/ arguments !! "output_dir" = Some (PyStr "") ->
                 Path_str (Path_of out) = Path_str (Path_parent input_path))
             /\ fs_mkdir fs (Path_str (Path_of out)) = Ret (w_fs w')
             /\ job_after_mkdir (Path_str (Path_of out)) new).
Proof.
  rewrite (stateless_translate_pdf engine environ arguments fs before).
  destruct (translate_pdf engine environ arguments (mkWorld fs [])) as [r0 w0] eqn:Hrun.
  cbn [fst snd]. intros [= <- <-]. exists (w_calls w0). split; [reflexivity|].
  cbn [w_fs]. revert Hrun. unfold translate_pdf.
  destruct (negb (truthy (dict_get arguments "input_file")));
    [intros [= <- <-]; left; apply no_job_nil|].
  unfold dict_get at 1 2. destruct (arguments !! "input_file") as [input_file|] eqn:Harg;
    [|intros [= <- <-]; left; apply no_job_nil].
  destruct input_file as [| | |file_path|];
    try (intros [= <- <-]; left; apply no_job_nil).
  unfold bind, read_fs. cbn [w_fs].
  destruct (resolve_path_with_unicode_normalization file_path fs)
    as [[input_path|]|] eqn:Hresolve;
    try (intros [= <- <-]; left; apply no_job_nil).
  destruct (negb _); [intros [= <- <-]; left; apply no_job_nil|].
  destruct (resolve_settings environ arguments input_path) as [early|s] eqn:Hs;
    [intros [= <- <-]; left; apply no_job_nil|].
  intros Hrun. apply run_translation_calls in Hrun as [[Hnone _]|(out & Hout & Hmkdir & Hjob)];
    [left; exact Hnone|].
  right. exists file_path, input_path, out.
  rewrite (resolve_settings_output_dir arguments input_path s Hs) in Hout.
  repeat (split; [first [reflexivity|assumption]|]).
  split; [|split; assumption].
  intros Habsent. revert Hout. unfold py_or, dict_get.
  destruct Habsent as [->|[->| ->]]; cbn [truthy]; intros [= <-];
    rewrite (Path_of_str _ (resolve_path_parent_wf file_path fs input_path Hresolve));
    reflexivity.
Qed.

End OutputDir.

(** The call gives no output directory: the directory made before the job
    is [/docs], the parent of the input file. *)
Lemma translate_pdf_output_dir_witness :
  job_after_mkdir "/docs"
    (w_calls (snd (Demo.translate Demo.engine Demo.environ
                     {[ "input_file" := PyStr "/docs/paper.pdf" ]} Demo.world))).
Proof.
  destruct (translate_pdf_output_dir (RT := e_acute_runtime) (FSI := TreeFS_FileSystem)
              Demo.engine Demo.environ {[ "input_file" := PyStr "/docs/paper.pdf" ]}
              Demo.disk [] _ _ (surjective_pairing _))
    as (new & Hnew & [Hnone|(f & p & out & Harg & Hres & _ & Habsent & _ & Hjob)]).
  - exfalso. cbn [app] in Hnew. rewrite <- Hnew in Hnone.
    destruct (Hnone Demo.config) as [Hconfig _]. apply Hconfig.
    vm_compute. auto 10.
  - cbn [app] in Hnew. rewrite <- Hnew in Hjob.
    vm_compute in Harg. injection Harg as <-.
    vm_compute in Hres. injection Hres as <-.
    rewrite (Habsent (or_introl eq_refl)) in Hjob. exact Hjob.
Defined.

(** ** Reduction of the event stream *)

Lemma event_is_error_not_progress (ev : event) :
  event_is "error" ev = true -> event_is "progress_update" ev = false.
Proof.
  unfold event_is. destruct (ev !! "type") as [ty|]; [|discriminate].
  intros Hty. apply py_eq_str_true in Hty as ->. reflexivity.
Qed.

Lemma event_is_finish_not_others (ev : event) :
  event_is "finish" ev = true ->
  event_is "progress_update" ev = false /\ event_is "error" ev = false.
Proof.
  unfold event_is. destruct (ev !! "type") as [ty|]; [|discriminate].
  intros Hty. apply py_eq_str_true in Hty as ->. split; reflexivity.
Qed.

(** One step of the loop, in terms of the kind of the event. *)
Lemma handle_event_typed (ev : event) (st : loop_state) :
  is_Some (ev !! "type") ->
  exists st',
    handle_event ev st = Ret st'
    /\ translation_error st'
       = (if event_is "error" ev
          then dict_get_default ev "error" (PyStr "Unknown error")
          else translation_error st)
    /\ result_info st'
       = (if event_is "finish" ev then dict_get ev "translate_result" else result_info st).
Proof.
  intros [ty Hty].
  pose proof (event_is_error_not_progress ev) as Herror.
  pose proof (event_is_finish_not_others ev) as Hfinish.
  unfold handle_event, event_is in *. rewrite Hty in *.
  destruct (py_eq_str ty "progress_update").
  - eexists. split; [reflexivity|]. cbn [translation_error result_info].
    destruct (py_eq_str ty "error"); [discriminate (Herror eq_refl)|].
    destruct (py_eq_str ty "finish"); [destruct (Hfinish eq_refl); discriminate|].
    split; reflexivity.
  - destruct (py_eq_str ty "error").
    + eexists. split; [reflexivity|]. cbn [translation_error result_info].
      destruct (py_eq_str ty "finish"); [destruct (Hfinish eq_refl); discriminate|].
      split; reflexivity.
    + destruct (py_eq_str ty "finish"); eexists; (split; [reflexivity|]);
        split; reflexivity.
Qed.

(** The loop leaves the payload of the last error and of the last finish. *)
Lemma handle_events_last (evs : list event) (st : loop_state) :
  Forall (fun ev => is_Some (ev !! "type")) evs ->
  exists st',
    handle_events evs st = Ret st'
    /\ translation_error st'
       = match last_error evs with Some payload => payload | None => translation_error st end
    /\ result_info st'
       = match last_finish evs with Some payload => payload | None => result_info st end.
Proof.
  intros Hall. revert st. induction Hall as [|ev evs Hev _ IH]; intros st.
  - exists st. repeat split.
  - destruct (handle_event_typed ev st Hev) as (st1 & Hstep & Herror & Hfinish).
    destruct (IH st1) as (st' & Hrest & Herror' & Hfinish').
    exists st'. cbn [handle_events last_error last_finish]. rewrite Hstep. cbn [res_bind].
    split; [exact Hrest|]. rewrite Herror', Hfinish', Herror, Hfinish.
    split.
    + destruct (last_error evs); [reflexivity|]. destruct (event_is "error" ev); reflexivity.
    + destruct (last_finish evs); [reflexivity|]. destruct (event_is "finish" ev); reflexivity.
Qed.

Section Reduction.

Context {RT : Runtime} {FS : Type} {FSI : FileSystem FS}.
Variable engine : Engine.

(** C2, as amended.  For a stream that yields the events [evs], each with a
    type, and then is exhausted, the loop consumes every event and the
    result is read off afterwards: when an [error] event was seen and the
    payload of the last one is truthy, the text is [Translation error: ]
    followed by that payload, whatever [finish] events there were and
    whatever earlier errors said; when no [error] event was seen and the
    payload of the last [finish] event is truthy, the result is the success
    record that carries that payload; when no [error] event was seen and
    there was no [finish] event, or the last one carried no truthy payload,
    the text is [Translation completed but no result information
    available]. *)
Theorem consume_stream_reduction (c : TranslationConfigArgs) (evs : list event)
    (w : World FS) (input_path output_path : Path) (s : CallSettings) :
  engine_async_translate engine c = (evs, None) ->
  Forall (fun ev => is_Some (ev !! "type")) evs ->
  exists st,
    consume_stream engine c w
    = (Ret st, mkWorld (w_fs w) (w_calls w ++ [call_async_translate c]))
    /\ (forall payload,
          last_error evs = Some payload -> truthy payload = true ->
          translation_result engine input_path output_path s st
          = text_result ("Translation error: " ++ py_str payload))
    /\ (forall payload,
          last_error evs = None ->
          last_finish evs = Some payload -> truthy payload = true ->
          exists fields,
            translation_result engine input_path output_path s st
            = text_result (json_dumps (JDict fields))
            /\ json_field "status" fields = Some (JStr "success")
            /\ json_field "result" fields = Some (JStr (py_str payload)))
    /\ (last_error evs = None ->
        last_finish evs = None
        \/ (exists payload, last_finish evs = Some payload /\ truthy payload = false) ->
        translation_result engine input_path output_path s st = text_result no_result_text).
Proof.
  intros Hstream Hall.
  destruct (handle_events_last evs loop_start Hall) as (st & Hloop & Herror & Hfinish).
  exists st. unfold consume_stream. rewrite Hstream, Hloop.
  split; [reflexivity|]. unfold translation_result. rewrite Herror, Hfinish.
  cbn [loop_start translation_error result_info].
  split; [|split].
  - intros payload -> Htruthy. rewrite Htruthy. reflexivity.
  - intros payload -> -> Htruthy. change (truthy PyNone) with false.
    cbv iota. rewrite Htruthy.
    eexists. split; [reflexivity|]. split; reflexivity.
  - intros -> [->|(payload & -> & Hfalsy)]; change (truthy PyNone) with false;
      cbv iota; [reflexivity|].
    rewrite Hfalsy. reflexivity.
Qed.

End Reduction.

Lemma consume_stream_reduction_witness :
  exists st,
    consume_stream (FS := TreeFS) (Demo.engine_yielding Demo.two_errors) Demo.config Demo.world
    = (Ret st, mkWorld Demo.disk [call_async_translate Demo.config])
    /\ translation_result (RT := e_acute_runtime) (Demo.engine_yielding Demo.two_errors)
         (Path_of "/docs/paper.pdf") (Path_of "/docs") Demo.settings st
       = text_result "Translation error: quota exceeded".
Proof.
  destruct (consume_stream_reduction (RT := e_acute_runtime) (FS := TreeFS)
              (Demo.engine_yielding Demo.two_errors) Demo.config Demo.two_errors
              Demo.world (Path_of "/docs/paper.pdf") (Path_of "/docs") Demo.settings
              eq_refl)
    as (st & Hrun & Herror & _).
  - repeat constructor; eexists; reflexivity.
  - exists st. split; [exact Hrun|].
    exact (Herror (PyStr "quota exceeded") eq_refl eq_refl).
Defined.

(** The stream finishes and carries no result: a [finish] event was seen,
    no [error] event was, and the result is not a success. *)
Lemma translate_pdf_finish_without_result :
  last_error Demo.finish_without_result = None
  /\ last_finish Demo.finish_without_result = Some PyNone
  /\ fst (Demo.translate (Demo.engine_yielding Demo.finish_without_result) Demo.environ
            {[ "input_file" := PyStr "/docs/paper.pdf" ]} Demo.world)
     = Ret (text_result "Translation completed but no result information available").
Proof. repeat split. Qed.

(** ** The text of the results *)

Section Tags.

Context {RT : Runtime} {FS : Type} {FSI : FileSystem FS}.
Variable engine : Engine.
Variable environ : gmap string string.

(** What the [try] block returns, when it returns, is the result read off
    the state of the loop. *)
Lemma translation_body_ret (input_path : Path) (s : CallSettings) (w w' : World FS)
    (r : CallToolResult) :
  translation_body engine input_path s w = (Ret r, w') ->
  exists output_path st, r = translation_result engine input_path output_path s st.
Proof.
  unfold translation_body, bind, external, lift, mkdir, consume_stream, ret.
  cbn [w_fs w_calls].
  destruct (engine_init engine); [discriminate|].
  destruct (engine_OpenAITranslator engine _); [discriminate|].
  destruct (engine_set_translate_rate_limiter engine _); [discriminate|].
  destruct (engine_load_onnx engine); [discriminate|].
  destruct (Path_ctor (s_output_dir s)) as [output_path|]; [|discriminate].
  destruct (fs_mkdir _ _); [|discriminate]. cbn [w_fs w_calls].
  destruct (engine_TranslationConfig engine _); [discriminate|].
  destruct (engine_async_translate engine _) as [evs stop].
  destruct (handle_events evs loop_start) as [st|]; [|discriminate].
  destruct stop; [discriminate|].
  intros [= <- _]. exists output_path, st. reflexivity.
Qed.

(** The handler of the [try] block turns every exception into a result. *)
Lemma run_translation_cases (input_path : Path) (s : CallSettings) (w : World FS) :
  (exists r w', translation_body engine input_path s w = (Ret r, w')
                /\ run_translation engine input_path s w = (Ret r, w'))
  \/ (exists e w', translation_body engine input_path s w = (Raise e, w')
                   /\ run_translation engine input_path s w
                      = (Ret (text_result ("Translation failed: " ++ exn_str e)), w')).
Proof.
  unfold run_translation, try_except.
  destruct (translation_body engine input_path s w) as [[r|e] w'];
    [left|right]; eexists _, _; split; reflexivity.
Qed.

Lemma translation_result_cases (input_path output_path : Path) (s : CallSettings)
    (st : loop_state) :
  let r := translation_result engine input_path output_path s st in
  truthy (translation_error st) = true
  /\ result_text r = "Translation error: " ++ py_str (translation_error st)
  \/ truthy (translation_error st) = false /\ truthy (result_info st) = false
     /\ result_text r = no_result_text
  \/ truthy (translation_error st) = false /\ truthy (result_info st) = true
     /\ exists fields,
          result_text r = json_dumps (JDict fields)
          /\ json_field "status" fields = Some (JStr "success").
Proof.
  cbv zeta. unfold translation_result.
  destruct (truthy (translation_error st)); [left; split; reflexivity|].
  destruct (truthy (result_info st)); right; [right|left].
  - split; [reflexivity|]. split; [reflexivity|].
    eexists. split; reflexivity.
  - repeat split.
Qed.

(** C3, as amended.  A call for a file that the resolver does not find
    returns [Error: File not found: <input_file>].  Every result of
    [translate_pdf] is of one of these kinds: (a) a validation or
    configuration failure, returned before any external call, whose text
    begins with [Error: ]; (b) an exception raised in the [try] block,
    whose text is [Translation failed: ] followed by the message of the
    exception; (c) an error reported by the engine with a truthy payload,
    whose text is [Translation error: ] followed by the payload; (d) a
    stream that ended with neither a truthy error nor a truthy result, whose
    text is [Translation completed but no result information available],
    with no tag; (e) a success record. *)
Theorem translate_pdf_error_tags (arguments : gmap string pyval) (w : World FS) :
  (forall file_path,
     arguments !! "input_file" = Some (PyStr file_path) ->
     file_path <> "" ->
     resolve_path_with_unicode_normalization file_path (w_fs w) = Ret None ->
     translate_pdf engine environ arguments w
     = (Ret (text_result ("Error: File not found: " ++ file_path)), w))
  /\ (forall r w',
        translate_pdf engine environ arguments w = (Ret r, w') ->
        (w' = w /\ String.prefix "Error: " (result_text r) = true)
        \/ (exists input_path s e w1,
              translation_body engine input_path s w = (Raise e, w1)
              /\ result_text r = "Translation failed: " ++ exn_str e)
        \/ (exists input_path output_path s st,
              r = translation_result engine input_path output_path s st
              /\ (truthy (translation_error st) = true
                  /\ result_text r = "Translation error: " ++ py_str (translation_error st)
                  \/ truthy (translation_error st) = false
                     /\ truthy (result_info st) = false
                     /\ result_text r = no_result_text
                  \/ truthy (translation_error st) = false
                     /\ truthy (result_info st) = true
                     /\ exists fields,
                          result_text r = json_dumps (JDict fields)
                          /\ json_field "status" fields = Some (JStr "success")))).
Proof.
  split.
  - intros file_path Harg Hnonempty Hresolve.
    assert (Htruthy : truthy (PyStr file_path) = true)
      by (destruct file_path; [contradiction|reflexivity]).
    unfold translate_pdf, dict_get. rewrite Harg, Htruthy. cbn [negb].
    unfold bind, read_fs. rewrite Hresolve. reflexivity.
  - intros r w'. unfold translate_pdf.
    destruct (negb (truthy (dict_get arguments "input_file")));
      [intros [= <- <-]; left; split; reflexivity|].
    unfold bind.
    destruct (match dict_get arguments "input_file" with
              | PyStr file_path =>
                  read_fs (resolve_path_with_unicode_normalization file_path)
              | _ => raise (Exn "TypeError" (Path_type_error (dict_get arguments "input_file")))
              end w) as [[[input_path|]|e] w0] eqn:Hresolve; [| |discriminate].
    2: { intros [= <- <-]. left. split; [|reflexivity].
         destruct (dict_get arguments "input_file"); try discriminate Hresolve.
         unfold read_fs in Hresolve. injection Hresolve as _ <-. reflexivity. }
    assert (Hworld : w0 = w).
    { destruct (dict_get arguments "input_file"); try discriminate Hresolve.
      unfold read_fs in Hresolve. injection Hresolve as _ <-. reflexivity. }
    subst w0. clear Hresolve.
    destruct (negb _); [intros [= <- <-]; left; split; reflexivity|].
    unfold resolve_settings. cbv zeta.
    destruct (py_eq_str _ "openrouter");
      [destruct (negb _); [intros [= <- <-]; left; split; reflexivity|]|
       destruct (py_eq_str _ "openai");
         [destruct (negb _); [intros [= <- <-]; left; split; reflexivity|]|
          intros [= <- <-]; left; split; reflexivity]].
    all: match goal with
         | |- run_translation _ ?p ?s ?w0 = _ -> _ =>
             destruct (run_translation_cases p s w0)
               as [(r0 & w1 & Hbody & ->)|(e & w1 & Hbody & ->)];
               intros [= <- <-]; right;
               [right|left; exists p, s, e, w1; split; [exact Hbody|reflexivity]]
         end.
    all: destruct (translation_body_ret _ _ _ _ _ Hbody) as (output_path & st & ->);
      eexists _, output_path, _, st; split; [reflexivity|];
      apply translation_result_cases.
Qed.

End Tags.

(** Scenario A on the demonstration disk, and scenario E: the engine raises
    during initialisation and the result is of kind (b). *)
Lemma translate_pdf_error_tags_witness :
  Demo.translate Demo.engine Demo.environ
    {[ "input_file" := PyStr "/docs/missing.pdf" ]} Demo.world
  = (Ret (text_result "Error: File not found: /docs/missing.pdf"), Demo.world)
  /\ exists input_path s e w1,
       translation_body (RT := e_acute_runtime) (FSI := TreeFS_FileSystem)
         Demo.broken_engine input_path s Demo.world = (Raise e, w1)
       /\ "Translation failed: model cache is not writable"
          = "Translation failed: " ++ exn_str e.
Proof.
  split.
  - exact (proj1
      (translate_pdf_error_tags (RT := e_acute_runtime) (FSI := TreeFS_FileSystem)
         Demo.engine Demo.environ {[ "input_file" := PyStr "/docs/missing.pdf" ]}
         Demo.world)
      "/docs/missing.pdf" eq_refl ltac:(discriminate) eq_refl).
  - destruct (proj2
      (translate_pdf_error_tags (RT := e_acute_runtime) (FSI := TreeFS_FileSystem)
         Demo.broken_engine Demo.environ Demo.paper_call Demo.world)
      (text_result "Translation failed: model cache is not writable")
      (mkWorld Demo.disk [call_init]) ltac:(vm_compute; reflexivity))
      as [[Hworld _]|[Hfailed|(p & out & s & st & _ & Hresult)]].
    + discriminate Hworld.
    + exact Hfailed.
    + exfalso. destruct Hresult as [[_ Htext]|[(_ & _ & Htext)|(_ & _ & fields & Htext & Hstatus)]].
      * discriminate Htext.
      * discriminate Htext.
      * destruct fields as [|[k v] fields]; [discriminate Hstatus|]. discriminate Htext.
Defined.

(** The call names a file that does not exist: the text begins with
    [Error:] and not with [Validation error:]. *)
Lemma translate_pdf_not_found_text :
  Demo.translate Demo.engine Demo.environ
    {[ "input_file" := PyStr "/docs/missing.pdf" ]} Demo.world
  = (Ret (text_result "Error: File not found: /docs/missing.pdf"), Demo.world)
  /\ String.prefix "Validation error:" "Error: File not found: /docs/missing.pdf" = false.
Proof. split; reflexivity. Qed.

(** ** Exceptions at the boundary of the handler *)

Section Boundary.

Context {RT : Runtime} {FS : Type} {FSI : FileSystem FS}.
Variable engine : Engine.
Variable environ : gmap string string.

(** Whatever the engine, the file system and the stream do inside the
    [try] block, [run_translation] returns a result. *)
Theorem run_translation_returns (input_path : Path) (s : CallSettings) (w : World FS) :
  exists r w', run_translation engine input_path s w = (Ret r, w').
Proof.
  destruct (run_translation_cases engine input_path s w)
    as [(r & w' & _ & Hrun)|(e & w' & _ & Hrun)]; eexists _, _; exact Hrun.
Qed.

(** [translate_pdf] returns a result whenever the resolution of the input
    path does not raise: the input file is absent or falsy, or it is a
    string on which the resolver returns. *)
Theorem translate_pdf_returns (arguments : gmap string pyval) (w : World FS) :
  (forall v, arguments !! "input_file" = Some v -> truthy v = true ->
             exists file_path found,
               v = PyStr file_path
               /\ resolve_path_with_unicode_normalization file_path (w_fs w) = Ret found) ->
  exists r w', translate_pdf engine environ arguments w = (Ret r, w').
Proof.
  intros Hresolver. unfold translate_pdf, dict_get.
  destruct (arguments !! "input_file") as [v|] eqn:Harg;
    [|eexists _, _; reflexivity].
  destruct (truthy v) eqn:Htruthy; cbn [negb]; [|eexists _, _; reflexivity].
  destruct (Hresolver v eq_refl Htruthy) as (file_path & found & -> & Hfound).
  unfold bind, read_fs. rewrite Hfound.
  destruct found as [input_path|]; [|eexists _, _; reflexivity].
  destruct (negb _); [eexists _, _; reflexivity|].
  destruct (resolve_settings environ arguments input_path) as [early|s];
    [eexists _, _; reflexivity|].
  destruct (run_translation_cases engine input_path s w)
    as [(r & w' & _ & Hrun)|(e & w' & _ & Hrun)]; eexists _, _; exact Hrun.
Qed.

(** An exception of the resolver is not caught: it leaves [translate_pdf]
    with the world as it was. *)
Lemma translate_pdf_resolver_raises (arguments : gmap string pyval) (file_path : string)
    (e : exn) (w : World FS) :
  arguments !! "input_file" = Some (PyStr file_path) ->
  file_path <> "" ->
  resolve_path_with_unicode_normalization file_path (w_fs w) = Raise e ->
  translate_pdf engine environ arguments w = (Raise e, w).
Proof.
  intros Harg Hnonempty Hresolve.
  assert (Htruthy : truthy (PyStr file_path) = true)
    by (destruct file_path; [contradiction|reflexivity]).
  unfold translate_pdf, dict_get. rewrite Harg, Htruthy. cbn [negb].
  unfold bind, read_fs. rewrite Hresolve. reflexivity.
Qed.

End Boundary.

Lemma translate_pdf_returns_witness :
  exists r w',
    Demo.translate Demo.broken_engine Demo.environ
      {[ "input_file" := PyStr "/docs/paper.pdf" ]} Demo.world = (Ret r, w').
Proof.
  apply (translate_pdf_returns (RT := e_acute_runtime) (FSI := TreeFS_FileSystem)).
  intros v Harg _. vm_compute in Harg. injection Harg as <-.
  eexists _, _. split; reflexivity.
Defined.

(** C1, where the code departs from it.  The input file is [/f/x.pdf] and
    [/f] is a regular file: the parent exists, its listing raises before
    the [try] block is entered, and the exception leaves [translate_pdf]
    and [call_tool].  The same happens for a file that is looked for in
    [/vault], a directory that may not be listed. *)
Theorem translate_pdf_raises_on_unlistable_parent :
  Demo.translate Demo.engine Demo.environ {[ "input_file" := PyStr "/f/x.pdf" ]} Demo.world
  = (Raise (Exn "NotADirectoryError" "[Errno 20] Not a directory: '/f'"), Demo.world)
  /\ Demo.dispatch Demo.engine Demo.environ "translate_pdf"
       {[ "input_file" := PyStr "/f/x.pdf" ]} Demo.world
     = (Raise (Exn "NotADirectoryError" "[Errno 20] Not a directory: '/f'"), Demo.world)
  /\ Demo.dispatch Demo.engine Demo.environ "translate_pdf"
       {[ "input_file" := PyStr "/vault/x.pdf" ]} Demo.world
     = (Raise (Exn "PermissionError" "[Errno 13] Permission denied: '/vault'"), Demo.world).
Proof. repeat split; vm_compute; reflexivity. Qed.

(** ** The tree file system makes directories *)

Lemma entry_lookup_update (name : string) (c c' : node) (es : list (string * node)) :
  entry_lookup name es = Some c ->
  entry_lookup name (entry_update name c' es) = Some c'.
Proof.
  induction es as [|[n d] es IH]; cbn [entry_lookup entry_update]; [discriminate|].
  destruct (String.eqb n name) eqn:Hn; cbn [entry_lookup]; rewrite Hn; [reflexivity|exact IH].
Qed.

Lemma entry_lookup_new (name : string) (c' : node) (es : list (string * node)) :
  entry_lookup name es = None ->
  entry_lookup name (es ++ [(name, c')])%list = Some c'.
Proof.
  induction es as [|[n d] es IH]; cbn [entry_lookup app].
  - rewrite String.eqb_refl. reflexivity.
  - destruct (String.eqb n name); [discriminate|exact IH].
Qed.

Lemma make_dirs_found (path : string) (parts : list string) (n n' : node) :
  make_dirs path n parts = Ret n' -> exists open es, walk n' parts = Found (Dir open es).
Proof.
  revert n n'. induction parts as [|name rest IH]; intros n n'.
  - destruct n as [|open es]; cbn [make_dirs]; [discriminate|].
    intros [= <-]. exists open, es. reflexivity.
  - destruct n as [|open es]; cbn [make_dirs]; [discriminate|].
    destruct (entry_lookup name es) as [c|] eqn:Hlookup.
    + destruct (make_dirs path c rest) as [c'|] eqn:Hrest; cbn [res_bind]; [|discriminate].
      intros [= <-]. cbn [walk]. rewrite (entry_lookup_update name c c' es Hlookup).
      exact (IH c c' Hrest).
    + destruct open; [|discriminate].
      destruct (make_dirs path (Dir true []) rest) as [c'|] eqn:Hrest; cbn [res_bind];
        [|discriminate].
      intros [= <-]. cbn [walk]. rewrite (entry_lookup_new name c' es Hlookup).
      exact (IH (Dir true []) c' Hrest).
Qed.

(** After a [mkdir] that returns, the path exists and is a directory. *)
Theorem tree_mkdir_creates (t t' : TreeFS) (path : string) :
  tree_mkdir t path = Ret t' ->
  tree_exists t' path = Ret true
  /\ exists open es, walk (tree_root t') (tree_parts t' path) = Found (Dir open es).
Proof.
  unfold tree_mkdir, tree_exists.
  destruct (make_dirs path (tree_root t) (tree_parts t path)) as [root'|] eqn:Hmake;
    cbn [res_bind]; [|discriminate].
  intros [= <-]. apply make_dirs_found in Hmake as (open & es & Hwalk).
  unfold tree_parts in *. cbn [tree_root tree_cwd]. rewrite Hwalk.
  split; [reflexivity|]. exists open, es. reflexivity.
Qed.

Lemma tree_mkdir_creates_witness :
  exists t',
    tree_mkdir Demo.disk "/out/2024" = Ret t'
    /\ tree_exists Demo.disk "/out/2024" = Ret false
    /\ tree_exists t' "/out/2024" = Ret true.
Proof.
  eexists. split; [reflexivity|]. split; [reflexivity|].
  exact (proj1 (tree_mkdir_creates Demo.disk _ "/out/2024" eq_refl)).
Defined.

(** * Further properties *)

(** ** The catalogue and the handlers *)

(** The defaults that the schema of [translate_pdf] declares. *)
Lemma schema_default_cases (k : string) (j : json) :
  schema_default translate_pdf_schema k = Some j ->
  In (k, j) [ ("lang_in", JStr "en"); ("lang_out", JStr "zh"); ("no_dual", JBool false);
              ("no_mono", JBool false); ("service", JStr "openrouter"); ("qps", JInt 4);
              ("watermark", JBool true) ].
Proof.
  unfold schema_default.
  set (properties := schema_properties translate_pdf_schema).
  vm_compute in properties. subst properties. cbn [json_field].
  repeat match goal with
         | |- context [String.eqb ?a k] =>
             destruct (String.eqb_spec a k) as [<-|_];
               [cbn; intros H; first [discriminate H | injection H as <-; tauto]|]
         end.
  discriminate.
Qed.

Section Catalogue.

Context {RT : Runtime} {FS : Type} {FSI : FileSystem FS}.
Variable engine : Engine.
Variable environ : gmap string string.

Ltac lookup_inserted :=
  repeat first [ rewrite lookup_insert_eq | rewrite lookup_insert_ne by discriminate ].

(** The defaults that the schema declares are the ones the handler applies:
    giving an undeclared argument its schema default changes nothing. *)
Theorem schema_defaults_applied (arguments : gmap string pyval) (k : string) (j : json)
    (v : pyval) (w : World FS) :
  schema_default translate_pdf_schema k = Some j ->
  pyval_of_json j = Some v ->
  arguments !! k = None ->
  translate_pdf engine environ (<[k := v]> arguments) w
  = translate_pdf engine environ arguments w.
Proof.
  intros Hdefault Hvalue Hnone. apply schema_default_cases in Hdefault.
  cbn [In] in Hdefault.
  repeat (destruct Hdefault as [[= <- <-]|Hdefault];
          [injection Hvalue as <-; unfold translate_pdf, resolve_settings, dict_get_default,
             dict_get; lookup_inserted; rewrite Hnone; reflexivity|]).
  contradiction.
Qed.

(** The services that the schema enumerates are the ones the handler
    accepts: a given service is in the enumeration exactly when the settings
    are not refused as an unknown service. *)
Theorem service_enum_accepted (arguments : gmap string pyval) (v : pyval)
    (input_path : Path) :
  arguments !! "service" = Some v ->
  In (json_of v) (schema_enum translate_pdf_schema "service")
  <-> resolve_settings environ arguments input_path
      <> inl (text_result ("Error: Unknown service: " ++ py_str v
                           ++ ". Use 'openrouter' or 'openai'")).
Proof.
  intros Hservice.
  change (schema_enum translate_pdf_schema "service")
    with [JStr "openrouter"; JStr "openai"].
  unfold resolve_settings, dict_get_default. rewrite Hservice. cbv zeta.
  destruct (py_eq_str v "openrouter") eqn:Hrouter.
  { apply py_eq_str_true in Hrouter as ->. split; [|intros _; left; reflexivity].
    intros _. destruct (negb _); discriminate. }
  destruct (py_eq_str v "openai") eqn:Hopenai.
  { apply py_eq_str_true in Hopenai as ->.
    split; [|intros _; right; left; reflexivity].
    intros _. destruct (negb _); discriminate. }
  apply py_eq_str_false in Hrouter, Hopenai.
  split; [|intros Hrefused; contradiction Hrefused; reflexivity].
  intros [Hin|[Hin|[]]]; destruct v; try discriminate Hin;
    injection Hin as <-; [contradiction Hrouter|contradiction Hopenai]; reflexivity.
Qed.

(** The handler enforces what the schema requires: a call without a
    required argument is refused with [Error: <argument> is required], and
    nothing else happens. *)
Theorem required_arguments_enforced (arguments : gmap string pyval) (k : string)
    (w : World FS) :
  In (JStr k) (schema_required translate_pdf_schema) ->
  arguments !! k = None ->
  translate_pdf engine environ arguments w
  = (Ret (text_result ("Error: " ++ k ++ " is required")), w).
Proof.
  change (schema_required translate_pdf_schema) with [JStr "input_file"].
  intros [[= <-]|[]] Hnone. unfold translate_pdf, dict_get. rewrite Hnone. reflexivity.
Qed.

(** For the declared arguments that have no default in the schema, a call
    that gives [None] is the call that does not give the argument. *)
Theorem null_argument_is_absent (arguments : gmap string pyval) (k : string)
    (w : World FS) :
  In k declared_arguments ->
  schema_default translate_pdf_schema k = None ->
  arguments !! k = None ->
  translate_pdf engine environ (<[k := PyNone]> arguments) w
  = translate_pdf engine environ arguments w.
Proof.
  intros Hdeclared Hdefault Hnone. vm_compute in Hdeclared.
  repeat (destruct Hdeclared as [<-|Hdeclared];
          [first [ discriminate Hdefault
                 | unfold translate_pdf, resolve_settings, dict_get_default, dict_get;
                   lookup_inserted; rewrite Hnone; reflexivity ]|]).
  contradiction.
Qed.

(** The handler reads the declared arguments and no other: two calls that
    agree on the declared arguments behave alike. *)
Theorem undeclared_arguments_ignored (arguments arguments' : gmap string pyval)
    (w : World FS) :
  (forall k, In k declared_arguments -> arguments !! k = arguments' !! k) ->
  translate_pdf engine environ arguments w = translate_pdf engine environ arguments' w.
Proof.
  intros Hagree.
  assert (Hdeclared : forall k, In k [ "input_file"; "output_dir"; "lang_in"; "lang_out";
                                       "pages"; "no_dual"; "no_mono"; "service"; "model";
                                       "qps"; "watermark" ] ->
                                arguments !! k = arguments' !! k) by exact Hagree.
  clear Hagree.
  assert (Hall : Forall (fun k => arguments !! k = arguments' !! k)
                   [ "input_file"; "output_dir"; "lang_in"; "lang_out"; "pages"; "no_dual";
                     "no_mono"; "service"; "model"; "qps"; "watermark" ])
    by (apply List.Forall_forall; exact Hdeclared).
  clear Hdeclared.
  repeat match type of Hall with
         | List.Forall _ (_ :: _) =>
             let H := fresh "Hk" in
             pose proof (List.Forall_inv Hall) as H; cbv beta in H;
             apply List.Forall_inv_tail in Hall
         end.
  unfold translate_pdf, resolve_settings, dict_get_default, dict_get.
  repeat match goal with
         | H : arguments !! _ = arguments' !! _ |- _ => rewrite H; clear H
         end.
  reflexivity.
Qed.

End Catalogue.

Lemma schema_defaults_applied_witness :
  Demo.translate Demo.engine Demo.environ Cases.qps_call Demo.world
  = Demo.translate Demo.engine Demo.environ Demo.paper_call Demo.world.
Proof.
  exact (schema_defaults_applied (RT := e_acute_runtime) (FSI := TreeFS_FileSystem)
           Demo.engine Demo.environ Demo.paper_call "qps" (JInt 4) (PyInt 4) Demo.world
           eq_refl eq_refl eq_refl).
Defined.

Lemma service_enum_accepted_witness :
  In (JStr "openai") (schema_enum translate_pdf_schema "service").
Proof.
  apply (proj2 (service_enum_accepted Demo.environ Cases.openai_call (PyStr "openai")
                  (Path_of "/docs/paper.pdf") eq_refl)).
  vm_compute. discriminate.
Defined.

Lemma required_arguments_enforced_witness :
  Demo.translate Demo.engine Demo.environ {[ "lang_out" := PyStr "vi" ]} Demo.world
  = (Ret (text_result "Error: input_file is required"), Demo.world).
Proof.
  exact (required_arguments_enforced (RT := e_acute_runtime) (FSI := TreeFS_FileSystem)
           Demo.engine Demo.environ {[ "lang_out" := PyStr "vi" ]} "input_file" Demo.world
           (or_introl eq_refl) eq_refl).
Defined.

Lemma null_argument_is_absent_witness :
  Demo.translate Demo.engine Demo.environ Cases.null_model_call Demo.world
  = Demo.translate Demo.engine Demo.environ Demo.paper_call Demo.world.
Proof.
  apply (null_argument_is_absent (RT := e_acute_runtime) (FSI := TreeFS_FileSystem)).
  - vm_compute. tauto.
  - reflexivity.
  - reflexivity.
Defined.

Lemma undeclared_arguments_ignored_witness :
  Demo.translate Demo.engine Demo.environ Cases.verbose_call Demo.world
  = Demo.translate Demo.engine Demo.environ Demo.paper_call Demo.world.
Proof.
  apply (undeclared_arguments_ignored (RT := e_acute_runtime) (FSI := TreeFS_FileSystem)).
  intros k Hk. apply lookup_insert_ne. intros <-.
  vm_compute in Hk. intuition discriminate.
Defined.

(** ** What the event loop keeps and what it drops *)

Lemma handle_events_app (evs evs' : list event) (st : loop_state) :
  handle_events (evs ++ evs')%list st
  = (st' <~ handle_events evs st ;; handle_events evs' st').
Proof.
  revert st. induction evs as [|ev evs IH]; intros st; [reflexivity|].
  cbn [handle_events app]. destruct (handle_event ev st) as [st1|e]; cbn [res_bind];
    [apply IH|reflexivity].
Qed.

Lemma decisive_last_error (evs : list event) :
  last_error (List.filter decisive evs) = last_error evs.
Proof.
  induction evs as [|ev evs IH]; [reflexivity|].
  cbn [List.filter last_error]. unfold decisive at 1.
  destruct (event_is "error" ev) eqn:Herror; cbn [orb last_error].
  - rewrite IH, Herror. reflexivity.
  - destruct (event_is "finish" ev); cbn [last_error]; rewrite IH, ?Herror;
      destruct (last_error evs); reflexivity.
Qed.

Lemma decisive_last_finish (evs : list event) :
  last_finish (List.filter decisive evs) = last_finish evs.
Proof.
  induction evs as [|ev evs IH]; [reflexivity|].
  cbn [List.filter last_finish]. unfold decisive at 1.
  destruct (event_is "finish" ev) eqn:Hfinish; cbn [orb last_finish].
  - rewrite orb_true_r. cbn [last_finish]. rewrite IH, Hfinish. reflexivity.
  - rewrite orb_false_r. destruct (event_is "error" ev); cbn [last_finish];
      rewrite IH, ?Hfinish; destruct (last_finish evs); reflexivity.
Qed.

(** The history gets one line for each progress update, in order. *)
Lemma handle_events_progress (evs : list event) (st : loop_state) :
  Forall (fun ev => is_Some (ev !! "type")) evs ->
  exists st',
    handle_events evs st = Ret st'
    /\ progress_info st'
       = (progress_info st
          ++ List.map progress_line (List.filter (event_is "progress_update") evs))%list.
Proof.
  intros Hall. revert st. induction Hall as [|ev evs [ty Hty] _ IH]; intros st.
  - exists st. cbn [List.filter List.map]. rewrite app_nil_r. split; reflexivity.
  - cbn [handle_events List.filter]. unfold handle_event, event_is at 1. rewrite Hty.
    destruct (py_eq_str ty "progress_update"); cbn [res_bind].
    + match goal with
      | |- context [handle_events evs ?st1] => destruct (IH st1) as (st' & Hrun & Hlines)
      end.
      exists st'. split; [exact Hrun|]. rewrite Hlines. cbn [progress_info List.map].
      rewrite <- app_assoc. reflexivity.
    + destruct (py_eq_str ty "error"); [|destruct (py_eq_str ty "finish")]; cbn [res_bind];
        match goal with
        | |- context [handle_events evs ?st1] => destruct (IH st1) as (st' & Hrun & Hlines)
        end;
        exists st'; (split; [exact Hrun|]); rewrite Hlines; reflexivity.
Qed.

Section EventLoop.

Context {RT : Runtime} {FS : Type} {FSI : FileSystem FS}.
Variable engine : Engine.

(** Progress updates and events of other kinds never change the result:
    the loop over all the events and the loop over the [error] and [finish]
    events alone end with the same pending error and the same result, and
    so with the same answer.  The progress updates only fill the history,
    one line each, in order. *)
Theorem progress_events_do_not_decide (evs : list event) (input_path output_path : Path)
    (s : CallSettings) :
  Forall (fun ev => is_Some (ev !! "type")) evs ->
  exists st st',
    handle_events evs loop_start = Ret st
    /\ handle_events (List.filter decisive evs) loop_start = Ret st'
    /\ translation_error st = translation_error st'
    /\ result_info st = result_info st'
    /\ translation_result engine input_path output_path s st
       = translation_result engine input_path output_path s st'
    /\ progress_info st
       = List.map progress_line (List.filter (event_is "progress_update") evs).
Proof.
  intros Hall.
  assert (Hdecisive : Forall (fun ev => is_Some (ev !! "type")) (List.filter decisive evs)).
  { apply List.Forall_forall. intros ev Hev. apply List.filter_In in Hev as [Hev _].
    exact (proj1 (List.Forall_forall _ _) Hall ev Hev). }
  destruct (handle_events_last evs loop_start Hall) as (st & Hrun & Herror & Hfinish).
  destruct (handle_events_last _ loop_start Hdecisive) as (st' & Hrun' & Herror' & Hfinish').
  destruct (handle_events_progress evs loop_start Hall) as (st0 & Hrun0 & Hprogress).
  rewrite Hrun in Hrun0. injection Hrun0 as <-.
  rewrite decisive_last_error in Herror'. rewrite decisive_last_finish in Hfinish'.
  exists st, st'. split; [exact Hrun|]. split; [exact Hrun'|].
  assert (Heq_error : translation_error st = translation_error st') by congruence.
  assert (Heq_result : result_info st = result_info st') by congruence.
  split; [exact Heq_error|]. split; [exact Heq_result|].
  split; [unfold translation_result; rewrite Heq_error, Heq_result; reflexivity|].
  exact Hprogress.
Qed.

(** An event without a type ends the loop with a [KeyError], whatever the
    other events are. *)
Lemma handle_events_untyped (evs : list event) (st : loop_state) :
  Exists (fun ev => ev !! "type" = None) evs ->
  handle_events evs st = Raise (Exn "KeyError" "'type'").
Proof.
  intros Huntyped. revert st. induction Huntyped as [ev evs Hev|ev evs _ IH]; intros st.
  - cbn [handle_events]. unfold handle_event. rewrite Hev. reflexivity.
  - cbn [handle_events]. destruct (ev !! "type") as [ty|] eqn:Hty.
    + destruct (handle_event_typed ev st (ex_intro _ ty Hty)) as (st1 & -> & _).
      cbn [res_bind]. apply IH.
    + unfold handle_event. rewrite Hty. reflexivity.
Qed.

(** A call whose engine is ready and whose output directory can be made
    reaches the stream, and its answer is read off the stream. *)
Lemma run_translation_ready (input_path : Path) (s : CallSettings) (out : string)
    (fs fs' : FS) (before : list call) :
  engine_ready engine ->
  s_output_dir s = PyStr out ->
  fs_mkdir fs (Path_str (Path_of out)) = Ret fs' ->
  run_translation engine input_path s (mkWorld fs before)
  = (Ret (match handle_events (fst (engine_async_translate engine
                                      (job_request input_path out s))) loop_start,
                snd (engine_async_translate engine (job_request input_path out s)) with
          | Ret st, None => translation_result engine input_path (Path_of out) s st
          | Ret _, Some e => text_result ("Translation failed: " ++ exn_str e)
          | Raise e, _ => text_result ("Translation failed: " ++ exn_str e)
          end),
     mkWorld fs' (before ++ expected_calls input_path s)).
Proof.
  intros (Hinit & Htranslator & Hlimiter & Honnx & Hconfig) Hout Hmkdir.
  unfold run_translation, translation_body, try_except, bind, external, lift, mkdir,
    consume_stream, ret, expected_calls.
  cbn [w_fs w_calls]. rewrite Hinit, Htranslator, Hlimiter, Honnx, Hout.
  cbn [Path_ctor]. rewrite Hmkdir. cbn [w_fs w_calls]. rewrite Hconfig.
  fold (translator_args s). fold (job_request input_path out s).
  destruct (engine_async_translate engine (job_request input_path out s)) as [evs stop].
  cbn [fst snd w_fs w_calls]. rewrite <- !app_assoc. cbn [app].
  destruct (handle_events evs loop_start); [destruct stop|]; reflexivity.
Qed.

(** An event without a type in the stream: the call answers
    [Translation failed: 'type'], after all seven calls. *)
Theorem untyped_event_fails (input_path : Path) (s : CallSettings) (out : string)
    (fs fs' : FS) (before : list call) :
  engine_ready engine ->
  s_output_dir s = PyStr out ->
  fs_mkdir fs (Path_str (Path_of out)) = Ret fs' ->
  Exists (fun ev => ev !! "type" = None)
    (fst (engine_async_translate engine (job_request input_path out s))) ->
  run_translation engine input_path s (mkWorld fs before)
  = (Ret (text_result "Translation failed: 'type'"),
     mkWorld fs' (before ++ expected_calls input_path s)).
Proof.
  intros Hready Hout Hmkdir Huntyped.
  rewrite (run_translation_ready input_path s out fs fs' before Hready Hout Hmkdir).
  rewrite (handle_events_untyped _ loop_start Huntyped). reflexivity.
Qed.

(** A stream that raises after its events: the call answers
    [Translation failed: ] with the message of the exception, even when the
    events that came before held a result or an error. *)
Theorem stream_exception_fails (input_path : Path) (s : CallSettings) (out : string)
    (fs fs' : FS) (before : list call) (evs : list event) (e : exn) :
  engine_ready engine ->
  s_output_dir s = PyStr out ->
  fs_mkdir fs (Path_str (Path_of out)) = Ret fs' ->
  engine_async_translate engine (job_request input_path out s) = (evs, Some e) ->
  Forall (fun ev => is_Some (ev !! "type")) evs ->
  run_translation engine input_path s (mkWorld fs before)
  = (Ret (text_result ("Translation failed: " ++ exn_str e)),
     mkWorld fs' (before ++ expected_calls input_path s)).
Proof.
  intros Hready Hout Hmkdir Hstream Hall.
  rewrite (run_translation_ready input_path s out fs fs' before Hready Hout Hmkdir).
  rewrite Hstream. cbn [fst snd].
  destruct (handle_events_last evs loop_start Hall) as (st & -> & _). reflexivity.
Qed.

End EventLoop.

Lemma progress_events_do_not_decide_witness :
  exists st st',
    handle_events Cases.chatty_stream loop_start = Ret st
    /\ handle_events (List.filter decisive Cases.chatty_stream) loop_start = Ret st'
    /\ translation_error st = translation_error st'
    /\ result_info st = result_info st'
    /\ translation_result (RT := e_acute_runtime) Demo.engine
         (Path_of "/docs/paper.pdf") (Path_of "/docs") Demo.settings st
       = translation_result (RT := e_acute_runtime) Demo.engine
           (Path_of "/docs/paper.pdf") (Path_of "/docs") Demo.settings st'
    /\ progress_info st = ["parse: 1/3"; "render: 0/100"].
Proof.
  apply (progress_events_do_not_decide (RT := e_acute_runtime) Demo.engine
           Cases.chatty_stream (Path_of "/docs/paper.pdf") (Path_of "/docs") Demo.settings).
  repeat constructor; eexists; reflexivity.
Defined.

Lemma untyped_event_fails_witness :
  run_translation (RT := e_acute_runtime) (FSI := TreeFS_FileSystem)
    (Cases.engine_streaming Cases.untyped_stream None)
    (Path_of "/docs/paper.pdf") Demo.settings Demo.world
  = (Ret (text_result "Translation failed: 'type'"),
     mkWorld Demo.disk (expected_calls (Path_of "/docs/paper.pdf") Demo.settings)).
Proof.
  apply (untyped_event_fails (RT := e_acute_runtime) (FSI := TreeFS_FileSystem)
           (Cases.engine_streaming Cases.untyped_stream None)
           (Path_of "/docs/paper.pdf") Demo.settings "/docs" Demo.disk Demo.disk []).
  - repeat split.
  - reflexivity.
  - reflexivity.
  - apply Exists_cons_tl, Exists_cons_hd. reflexivity.
Defined.

Lemma stream_exception_fails_witness :
  run_translation (RT := e_acute_runtime) (FSI := TreeFS_FileSystem)
    (Cases.engine_streaming Cases.result_then_reset (Some Cases.connection_reset))
    (Path_of "/docs/paper.pdf") Demo.settings Demo.world
  = (Ret (text_result "Translation failed: connection reset by peer"),
     mkWorld Demo.disk (expected_calls (Path_of "/docs/paper.pdf") Demo.settings)).
Proof.
  apply (stream_exception_fails (RT := e_acute_runtime) (FSI := TreeFS_FileSystem)
           (Cases.engine_streaming Cases.result_then_reset (Some Cases.connection_reset))
           (Path_of "/docs/paper.pdf") Demo.settings "/docs" Demo.disk Demo.disk []
           Cases.result_then_reset Cases.connection_reset).
  - repeat split.
  - reflexivity.
  - reflexivity.
  - reflexivity.
  - repeat constructor; eexists; reflexivity.
Defined.

(** ** The anatomy of a call *)

Section Anatomy.

Context {RT : Runtime} {FS : Type} {FSI : FileSystem FS}.
Variable engine : Engine.
Variable environ : gmap string string.

(** A call returns at once and touches nothing, or it resolves its input
    file and its settings and runs the [try] block. *)
Lemma translate_pdf_anatomy (arguments : gmap string pyval) (w : World FS)
    (r : res CallToolResult) (w' : World FS) :
  translate_pdf engine environ arguments w = (r, w') ->
  w' = w
  \/ exists file_path input_path s,
       arguments !! "input_file" = Some (PyStr file_path)
       /\ resolve_path_with_unicode_normalization file_path (w_fs w) = Ret (Some input_path)
       /\ str_lower (Path_suffix input_path) = ".pdf"
       /\ resolve_settings environ arguments input_path = inr s
       /\ run_translation engine input_path s w = (r, w').
Proof.
  unfold translate_pdf.
  destruct (negb (truthy (dict_get arguments "input_file")));
    [intros [= <- <-]; left; reflexivity|].
  unfold dict_get. destruct (arguments !! "input_file") as [input_file|] eqn:Harg;
    [|intros [= <- <-]; left; reflexivity].
  destruct input_file as [| | |file_path|]; try (intros [= <- <-]; left; reflexivity).
  unfold bind, read_fs.
  destruct (resolve_path_with_unicode_normalization file_path (w_fs w))
    as [[input_path|]|] eqn:Hresolve; try (intros [= <- <-]; left; reflexivity).
  destruct (String.eqb_spec (str_lower (Path_suffix input_path)) ".pdf") as [Hsuffix|_];
    cbn [negb]; [|intros [= <- <-]; left; reflexivity].
  destruct (resolve_settings environ arguments input_path) as [early|s] eqn:Hs;
    [intros [= <- <-]; left; reflexivity|].
  intros Hrun. right. exists file_path, input_path, s. repeat split; assumption.
Qed.

(** The settings of a call, field by field. *)
Lemma resolve_settings_fields (arguments : gmap string pyval) (input_path : Path)
    (s : CallSettings) :
  resolve_settings environ arguments input_path = inr s ->
  s_service s = dict_get_default arguments "service" (PyStr "openrouter")
  /\ s_lang_in s = dict_get_default arguments "lang_in" (PyStr "en")
  /\ s_lang_out s = dict_get_default arguments "lang_out" (PyStr "zh")
  /\ s_pages s = dict_get arguments "pages"
  /\ s_no_dual s = dict_get_default arguments "no_dual" (PyBool false)
  /\ s_no_mono s = dict_get_default arguments "no_mono" (PyBool false)
  /\ s_qps s = dict_get_default arguments "qps" (PyInt 4)
  /\ s_watermark s = dict_get_default arguments "watermark" (PyBool true)
  /\ truthy (s_api_key s) = true
  /\ (s_service s = PyStr "openrouter"
      /\ s_api_key s = environ_get environ "OPENROUTER_API_KEY"
      /\ s_base_url s
         = environ_get_default environ "OPENROUTER_BASE_URL" "https://openrouter.ai/api/v1"
      \/ s_service s = PyStr "openai"
         /\ s_api_key s = environ_get environ "OPENAI_API_KEY"
         /\ s_base_url s = environ_get environ "OPENAI_BASE_URL").
Proof.
  unfold resolve_settings. cbv zeta.
  cbn [get_env_config openrouter_api_key openrouter_base_url openai_api_key openai_base_url].
  destruct (py_eq_str _ "openrouter") eqn:Hrouter.
  - apply py_eq_str_true in Hrouter.
    destruct (truthy (environ_get environ "OPENROUTER_API_KEY")) eqn:Hkey; cbn [negb];
      [|discriminate].
    intros [= <-]. cbn [s_service s_lang_in s_lang_out s_pages s_no_dual s_no_mono s_qps
                        s_watermark s_api_key s_base_url].
    repeat (split; [reflexivity|]). split; [exact Hkey|].
    left. repeat split. exact Hrouter.
  - destruct (py_eq_str _ "openai") eqn:Hopenai; [|discriminate].
    apply py_eq_str_true in Hopenai.
    destruct (truthy (environ_get environ "OPENAI_API_KEY")) eqn:Hkey; cbn [negb];
      [|discriminate].
    intros [= <-]. cbn [s_service s_lang_in s_lang_out s_pages s_no_dual s_no_mono s_qps
                        s_watermark s_api_key s_base_url].
    repeat (split; [reflexivity|]). split; [exact Hkey|].
    right. repeat split. exact Hopenai.
Qed.

(** The calls of the [try] block are an initial part of the full order,
    and the file system is left as it was or as the [mkdir] made it. *)
Lemma run_translation_prefix (input_path : Path) (s : CallSettings) (fs : FS)
    (before : list call) (r : res CallToolResult) (w' : World FS) :
  run_translation engine input_path s (mkWorld fs before) = (r, w') ->
  exists new rest,
    w_calls w' = (before ++ new)%list
    /\ expected_calls input_path s = (new ++ rest)%list
    /\ (w_fs w' = fs
        \/ exists out,
             s_output_dir s = PyStr out
             /\ In (call_mkdir (Path_str (Path_of out))) new
             /\ fs_mkdir fs (Path_str (Path_of out)) = Ret (w_fs w')).
Proof.
  unfold run_translation, translation_body, try_except, bind, external, lift, mkdir,
    consume_stream, ret, expected_calls.
  cbn [w_fs w_calls]. fold (translator_args s).
  destruct (engine_init engine);
    [intros [= <- <-]; exists [call_init]; eexists; repeat split; left; reflexivity|].
  destruct (engine_OpenAITranslator engine _);
    [intros [= <- <-]; cbn [w_calls w_fs]; rewrite <- !app_assoc; cbn [app];
     eexists [_; _], _; repeat split; left; reflexivity|].
  destruct (engine_set_translate_rate_limiter engine _);
    [intros [= <- <-]; cbn [w_calls w_fs]; rewrite <- !app_assoc; cbn [app];
     eexists [_; _; _], _; repeat split; left; reflexivity|].
  destruct (engine_load_onnx engine);
    [intros [= <- <-]; cbn [w_calls w_fs]; rewrite <- !app_assoc; cbn [app];
     eexists [_; _; _; _], _; repeat split; left; reflexivity|].
  destruct (s_output_dir s) as [| | |out|] eqn:Hout; cbn [Path_ctor];
    try (intros [= <- <-]; cbn [w_calls w_fs]; rewrite <- !app_assoc; cbn [app];
         eexists [_; _; _; _], []; repeat split; left; reflexivity).
  fold (job_request input_path out s).
  destruct (fs_mkdir fs (Path_str (Path_of out))) as [fs'|e] eqn:Hmkdir;
    [|intros [= <- <-]; cbn [w_calls w_fs]; rewrite <- !app_assoc; cbn [app];
      eexists [_; _; _; _; _], _; repeat split; left; reflexivity].
  cbn [w_fs w_calls].
  destruct (engine_TranslationConfig engine _).
  - intros [= <- <-]. cbn [w_calls w_fs]. rewrite <- !app_assoc. cbn [app].
    eexists [_; _; _; _; _; _], _. split; [reflexivity|]. split; [reflexivity|].
    right. exists out. split; [reflexivity|]. split; [cbn [In]; tauto|exact Hmkdir].
  - destruct (engine_async_translate engine _) as [evs stop]. cbn [w_fs w_calls].
    destruct (handle_events evs loop_start); [destruct stop|];
      intros [= <- <-]; cbn [w_calls w_fs]; rewrite <- !app_assoc; cbn [app];
      eexists [_; _; _; _; _; _; _], []; (split; [reflexivity|]); (split; [reflexivity|]);
      right; exists out; (split; [reflexivity|]); (split; [cbn [In]; tauto|exact Hmkdir]).
Qed.

Lemma expected_translator (input_path : Path) (s : CallSettings) (a : TranslatorArgs) :
  In (call_OpenAITranslator a) (expected_calls input_path s) -> a = translator_args s.
Proof.
  unfold expected_calls. destruct (s_output_dir s); cbn [app In];
    intros H; repeat (destruct H as [H|H]; [try discriminate H|]); try contradiction;
    injection H as <-; reflexivity.
Qed.

Lemma expected_limiter (input_path : Path) (s : CallSettings) (qps : pyval) :
  In (call_set_translate_rate_limiter qps) (expected_calls input_path s) -> qps = s_qps s.
Proof.
  unfold expected_calls. destruct (s_output_dir s); cbn [app In];
    intros H; repeat (destruct H as [H|H]; [try discriminate H|]); try contradiction;
    injection H as <-; reflexivity.
Qed.

Lemma expected_request (input_path : Path) (s : CallSettings) (c : TranslationConfigArgs) :
  In (call_TranslationConfig c) (expected_calls input_path s)
  \/ In (call_async_translate c) (expected_calls input_path s) ->
  exists out, s_output_dir s = PyStr out /\ c = job_request input_path out s.
Proof.
  unfold expected_calls. destruct (s_output_dir s) as [| | |out|]; cbn [app In];
    intros [H|H]; repeat (destruct H as [H|H]; [try discriminate H|]); try contradiction;
    injection H as <-; exists out; split; reflexivity.
Qed.

(** The external calls of a call are an initial part of one fixed order:
    the initialisation of the engine, the translator, the rate limiter, the
    layout model, the [mkdir] of the output directory, the job request, the
    job.  A later step is never taken before an earlier one, and a call
    that returns before the [try] block makes no call at all. *)
Theorem translate_pdf_call_order (arguments : gmap string pyval) (fs : FS)
    (before : list call) (r : res CallToolResult) (w' : World FS) :
  translate_pdf engine environ arguments (mkWorld fs before) = (r, w') ->
  exists new,
    w_calls w' = (before ++ new)%list
    /\ (new = []
        \/ exists file_path input_path s rest,
             arguments !! "input_file" = Some (PyStr file_path)
             /\ resolve_path_with_unicode_normalization file_path fs = Ret (Some input_path)
             /\ resolve_settings environ arguments input_path = inr s
             /\ expected_calls input_path s = (new ++ rest)%list).
Proof.
  intros Hrun. apply translate_pdf_anatomy in Hrun
    as [->|(file_path & input_path & s & Harg & Hresolve & _ & Hs & Hrun)].
  - exists []. cbn [w_calls]. rewrite app_nil_r. split; [reflexivity|left; reflexivity].
  - apply run_translation_prefix in Hrun as (new & rest & Hcalls & Hexpected & _).
    exists new. split; [exact Hcalls|]. right. exists file_path, input_path, s, rest.
    repeat split; assumption.
Qed.


(** A translator is only ever constructed with a key that is set and not
    empty, and the key and the base URL it gets are those of the provider
    that the call selects, never those of the other one. *)
Theorem translator_credentials (arguments : gmap string pyval) (fs : FS)
    (r : res CallToolResult) (w' : World FS) (a : TranslatorArgs) :
  translate_pdf engine environ arguments (mkWorld fs []) = (r, w') ->
  In (call_OpenAITranslator a) (w_calls w') ->
  let service := dict_get_default arguments "service" (PyStr "openrouter") in
  truthy (tr_api_key a) = true
  /\ (service = PyStr "openrouter"
      /\ tr_api_key a = environ_get environ "OPENROUTER_API_KEY"
      /\ tr_base_url a
         = environ_get_default environ "OPENROUTER_BASE_URL" "https://openrouter.ai/api/v1"
      \/ service = PyStr "openai"
         /\ tr_api_key a = environ_get environ "OPENAI_API_KEY"
         /\ tr_base_url a = environ_get environ "OPENAI_BASE_URL").
Proof.
  intros Hrun Hin. apply translate_pdf_anatomy in Hrun
    as [->|(file_path & input_path & s & _ & _ & _ & Hs & Hrun)]; [destruct Hin|].
  apply run_translation_prefix in Hrun as (new & rest & Hcalls & Hexpected & _).
  cbn [app] in Hcalls. rewrite Hcalls in Hin.
  assert (Ha : a = translator_args s).
  { apply (expected_translator input_path). rewrite Hexpected. apply in_or_app. left.
    exact Hin. }
  subst a. cbn [translator_args tr_api_key tr_base_url].
  destruct (resolve_settings_fields arguments input_path s Hs)
    as (Hservice & _ & _ & _ & _ & _ & _ & _ & Hkey & Hprovider).
  cbv zeta. rewrite <- Hservice. split; assumption.
Qed.

(** What the caller asks for reaches the engine unchanged: the job request,
    when one is built, holds the resolved input file, the pages, the
    languages, the two output switches and the rate of the call (or their
    defaults), and the watermark mode that the truth value of [watermark]
    selects; the rate limiter is set to the same rate. *)
Theorem job_request_pass_through (arguments : gmap string pyval) (fs : FS)
    (r : res CallToolResult) (w' : World FS) :
  translate_pdf engine environ arguments (mkWorld fs []) = (r, w') ->
  (forall qps,
     In (call_set_translate_rate_limiter qps) (w_calls w') ->
     qps = dict_get_default arguments "qps" (PyInt 4))
  /\ (forall c,
        In (call_TranslationConfig c) (w_calls w')
        \/ In (call_async_translate c) (w_calls w') ->
        (exists file_path input_path,
           arguments !! "input_file" = Some (PyStr file_path)
           /\ resolve_path_with_unicode_normalization file_path fs = Ret (Some input_path)
           /\ tc_input_file c = Path_str input_path)
        /\ tc_pages c = dict_get arguments "pages"
        /\ tc_lang_in c = dict_get_default arguments "lang_in" (PyStr "en")
        /\ tc_lang_out c = dict_get_default arguments "lang_out" (PyStr "zh")
        /\ tc_no_dual c = dict_get_default arguments "no_dual" (PyBool false)
        /\ tc_no_mono c = dict_get_default arguments "no_mono" (PyBool false)
        /\ tc_qps c = dict_get_default arguments "qps" (PyInt 4)
        /\ tc_watermark_output_mode c
           = (if truthy (dict_get_default arguments "watermark" (PyBool true))
              then Watermarked else NoWatermark)).
Proof.
  intros Hrun. apply translate_pdf_anatomy in Hrun
    as [->|(file_path & input_path & s & Harg & Hresolve & _ & Hs & Hrun)].
  { split; [intros qps []|intros c [[]|[]]]. }
  apply run_translation_prefix in Hrun as (new & rest & Hcalls & Hexpected & _).
  cbn [app] in Hcalls. rewrite Hcalls.
  destruct (resolve_settings_fields arguments input_path s Hs)
    as (_ & Hin & Hout & Hpages & Hdual & Hmono & Hqps & Hwatermark & _).
  split.
  - intros qps Hcall. rewrite <- Hqps. apply (expected_limiter input_path).
    rewrite Hexpected. apply in_or_app. left. exact Hcall.
  - intros c Hcall.
    destruct (expected_request input_path s c) as (out & _ & ->).
    { rewrite Hexpected. destruct Hcall as [Hcall|Hcall]; [left|right];
        apply in_or_app; left; exact Hcall. }
    cbn [job_request tc_input_file tc_pages tc_lang_in tc_lang_out tc_no_dual tc_no_mono
         tc_qps tc_watermark_output_mode].
    rewrite Hin, Hout, Hpages, Hdual, Hmono, Hqps, Hwatermark.
    split; [exists file_path, input_path; repeat split; assumption|].
    repeat split.
Qed.

End Anatomy.

Lemma translate_pdf_call_order_witness :
  w_calls (snd (Demo.translate Demo.broken_engine Demo.environ Demo.paper_call Demo.world))
  = [call_init]
  /\ exists rest,
       expected_calls (Path_of "/docs/paper.pdf")
         {| s_service := PyStr "openrouter"; s_lang_in := PyStr "en";
            s_lang_out := PyStr "zh"; s_pages := PyNone; s_no_dual := PyBool false;
            s_no_mono := PyBool false; s_qps := PyInt 4; s_watermark := PyBool true;
            s_output_dir := PyStr "/docs"; s_api_key := PyStr "sk-or-1";
            s_model := PyStr "vendor/model-a";
            s_base_url := PyStr "https://openrouter.ai/api/v1" |}
       = ([call_init] ++ rest)%list.
Proof.
  destruct (translate_pdf_call_order (RT := e_acute_runtime) (FSI := TreeFS_FileSystem)
              Demo.broken_engine Demo.environ Demo.paper_call Demo.disk [] _ _
              (surjective_pairing _))
    as (new & Hcalls & [Hnone|(f & p & s & rest & Harg & Hresolve & Hs & Hexpected)]).
  - subst new. discriminate Hcalls.
  - split; [reflexivity|]. exists rest.
    vm_compute in Harg. injection Harg as <-.
    vm_compute in Hresolve. injection Hresolve as <-.
    vm_compute in Hs. injection Hs as <-.
    vm_compute in Hcalls. subst new. exact Hexpected.
Defined.


Lemma translator_credentials_witness :
  truthy (tr_api_key Cases.openai_translator) = true
  /\ (dict_get_default Cases.openai_call "service" (PyStr "openrouter") = PyStr "openrouter"
      /\ tr_api_key Cases.openai_translator = environ_get Demo.environ "OPENROUTER_API_KEY"
      /\ tr_base_url Cases.openai_translator
         = environ_get_default Demo.environ "OPENROUTER_BASE_URL"
             "https://openrouter.ai/api/v1"
      \/ dict_get_default Cases.openai_call "service" (PyStr "openrouter") = PyStr "openai"
         /\ tr_api_key Cases.openai_translator = environ_get Demo.environ "OPENAI_API_KEY"
         /\ tr_base_url Cases.openai_translator
            = environ_get Demo.environ "OPENAI_BASE_URL").
Proof.
  refine (translator_credentials (RT := e_acute_runtime) (FSI := TreeFS_FileSystem)
            Demo.engine Demo.environ Cases.openai_call Demo.disk _ _
            Cases.openai_translator (surjective_pairing _) _).
  vm_compute. right. left. reflexivity.
Defined.

Lemma job_request_pass_through_witness :
  tc_pages Cases.tuned_request = dict_get Cases.tuned_call "pages"
  /\ tc_qps Cases.tuned_request = PyInt 2
  /\ tc_watermark_output_mode Cases.tuned_request = NoWatermark.
Proof.
  destruct (proj2 (job_request_pass_through (RT := e_acute_runtime)
                     (FSI := TreeFS_FileSystem) Demo.engine Demo.environ Cases.tuned_call
                     Demo.disk _ _ (surjective_pairing _)) Cases.tuned_request)
    as (_ & Hpages & _ & _ & _ & _ & Hqps & Hwatermark).
  - left. vm_compute. do 5 right. left. reflexivity.
  - split; [exact Hpages|]. split; [exact Hqps|exact Hwatermark].
Defined.

(** ** The environment of a call *)

Section Environment.

Context {RT : Runtime} {FS : Type} {FSI : FileSystem FS}.
Variable engine : Engine.

Lemma resolve_settings_provider_variables (environ environ' : gmap string string)
    (arguments : gmap string pyval) (input_path : Path) :
  (forall k,
     In k (provider_variables (dict_get_default arguments "service" (PyStr "openrouter"))) ->
     environ !! k = environ' !! k) ->
  resolve_settings environ arguments input_path
  = resolve_settings environ' arguments input_path.
Proof.
  unfold provider_variables, resolve_settings. cbv zeta.
  destruct (py_eq_str _ "openrouter").
  - intros Hagree.
    cbn [get_env_config openrouter_api_key openrouter_model openrouter_base_url].
    unfold environ_get, environ_get_default.
    rewrite <- (Hagree "OPENROUTER_API_KEY"), <- (Hagree "OPENROUTER_BASE_URL"),
      <- (Hagree "OPENROUTER_MODEL") by (cbn [In]; tauto).
    reflexivity.
  - destruct (py_eq_str _ "openai"); [|reflexivity].
    intros Hagree.
    cbn [get_env_config openai_api_key openai_model openai_base_url].
    unfold environ_get, environ_get_default.
    rewrite <- (Hagree "OPENAI_API_KEY"), <- (Hagree "OPENAI_BASE_URL"),
      <- (Hagree "OPENAI_MODEL") by (cbn [In]; tauto).
    reflexivity.
Qed.

(** A call depends on the three variables of the provider it selects and
    on no other variable: two environments that agree on them give the same
    result, the same calls and the same file system.  A call for
    OpenRouter does not depend on the key of OpenAI, and conversely. *)
Theorem translate_pdf_provider_variables (environ environ' : gmap string string)
    (arguments : gmap string pyval) (w : World FS) :
  (forall k,
     In k (provider_variables (dict_get_default arguments "service" (PyStr "openrouter"))) ->
     environ !! k = environ' !! k) ->
  translate_pdf engine environ arguments w = translate_pdf engine environ' arguments w.
Proof.
  intros Hagree. unfold translate_pdf.
  destruct (negb _); [reflexivity|]. unfold bind.
  destruct (match dict_get arguments "input_file" with
            | PyStr file_path => read_fs (resolve_path_with_unicode_normalization file_path)
            | _ => raise (Exn "TypeError" (Path_type_error (dict_get arguments "input_file")))
            end w) as [[[input_path|]|e] w0]; try reflexivity.
  destruct (negb _); [reflexivity|].
  rewrite (resolve_settings_provider_variables environ environ' arguments input_path Hagree).
  reflexivity.
Qed.

(** The status report and the key check agree: for a call that selects a
    provider, the report says that the provider is not configured exactly
    when the settings are refused for its missing key. *)
Theorem status_agrees_with_key_check (environ : gmap string string)
    (arguments : gmap string pyval) (input_path : Path) :
  let service := dict_get_default arguments "service" (PyStr "openrouter") in
  (service = PyStr "openrouter" ->
   json_field "openrouter_configured" (translation_status environ) = Some (JBool false)
   <-> resolve_settings environ arguments input_path
       = inl (text_result "Error: OPENROUTER_API_KEY environment variable not set"))
  /\ (service = PyStr "openai" ->
      json_field "openai_configured" (translation_status environ) = Some (JBool false)
      <-> resolve_settings environ arguments input_path
          = inl (text_result "Error: OPENAI_API_KEY environment variable not set")).
Proof.
  cbv zeta. unfold resolve_settings, translation_status. cbv zeta.
  cbn [json_field String.eqb Ascii.eqb Bool.eqb get_env_config openrouter_api_key
       openai_api_key].
  split; intros ->; cbn [py_eq_str String.eqb Ascii.eqb Bool.eqb].
  - destruct (truthy (environ_get environ "OPENROUTER_API_KEY")); cbn [negb];
      split; first [reflexivity | discriminate].
  - destruct (truthy (environ_get environ "OPENAI_API_KEY")); cbn [negb];
      split; first [reflexivity | discriminate].
Qed.

End Environment.

Lemma translate_pdf_provider_variables_witness :
  Demo.translate Demo.engine Demo.environ Demo.paper_call Demo.world
  = Demo.translate Demo.engine Cases.other_openai Demo.paper_call Demo.world.
Proof.
  apply (translate_pdf_provider_variables (RT := e_acute_runtime) (FSI := TreeFS_FileSystem)).
  intros k [<-|[<-|[<-|[]]]]; reflexivity.
Defined.

Lemma status_agrees_with_key_check_witness :
  resolve_settings ∅ Demo.paper_call (Path_of "/docs/paper.pdf")
  = inl (text_result "Error: OPENROUTER_API_KEY environment variable not set").
Proof.
  exact (proj1 (proj1 (status_agrees_with_key_check ∅ Demo.paper_call
                         (Path_of "/docs/paper.pdf")) eq_refl) eq_refl).
Defined.

(** ** What the resolver returns *)

Section ResolverSound.

Context {RT : Runtime} {FS : Type} {FSI : FileSystem FS}.

Lemma match_children_sound (parent : Path) (target : string) (names : list string)
    (found : Path) :
  match_children parent (normalize_NFC target) (normalize_NFD target) names = Some found ->
  exists name,
    In name names /\ found = Path_child parent name /\ name_matches target name.
Proof.
  induction names as [|name names IH]; [discriminate|].
  rewrite match_children_cons. destruct (bool_decide (name_matches target name)) eqn:Hname.
  - intros [= <-]. exists name. apply bool_decide_eq_true_1 in Hname.
    split; [left; reflexivity|]. split; [reflexivity|exact Hname].
  - intros Hfound. destruct (IH Hfound) as (n & Hin & Heq & Hmatch).
    exists n. split; [right; exact Hin|]. split; assumption.
Qed.

Lemma match_children_complete (parent : Path) (target : string) (names : list string) :
  match_children parent (normalize_NFC target) (normalize_NFD target) names = None ->
  forall name, In name names -> ~ name_matches target name.
Proof.
  induction names as [|n names IH]; [intros _ name []|].
  rewrite match_children_cons. destruct (bool_decide (name_matches target n)) eqn:Hn;
    [discriminate|].
  intros Hnone name [<-|Hin]; [exact (proj1 (bool_decide_eq_false _) Hn)|].
  apply IH; assumption.
Qed.

(** A path that the resolver returns is one that exists, or it is an entry
    of the listing of the parent of the requested path, under a name that
    matches the requested name. *)
Theorem resolve_path_sound (file_path : string) (fs : FS) (found : Path) :
  resolve_path_with_unicode_normalization file_path fs = Ret (Some found) ->
  fs_exists fs (Path_str found) = Ret true
  \/ exists names name,
       fs_listdir fs (Path_str (Path_parent (Path_of file_path))) = Ret names
       /\ In name names
       /\ found = Path_child (Path_parent (Path_of file_path)) name
       /\ Path_name found = name
       /\ name_matches (Path_name (Path_of file_path)) name.
Proof.
  unfold resolve_path_with_unicode_normalization.
  destruct (fs_exists fs (Path_str (Path_of file_path))) as [[]|] eqn:Hpath;
    cbn [res_bind]; [intros [= <-]; left; exact Hpath| |discriminate].
  destruct (fs_exists fs (Path_str (Path_of (normalize_NFC file_path)))) as [[]|] eqn:Hnfc;
    cbn [res_bind]; [intros [= <-]; left; exact Hnfc| |discriminate].
  destruct (fs_exists fs (Path_str (Path_of (normalize_NFD file_path)))) as [[]|] eqn:Hnfd;
    cbn [res_bind]; [intros [= <-]; left; exact Hnfd| |discriminate].
  destruct (fs_exists fs (Path_str (Path_parent (Path_of file_path)))) as [[]|];
    cbn [res_bind]; [|discriminate|discriminate].
  destruct (fs_listdir fs (Path_str (Path_parent (Path_of file_path)))) as [names|];
    cbn [res_bind]; [|discriminate].
  intros [= Hfound]. apply match_children_sound in Hfound as (name & Hin & -> & Hmatch).
  right. exists names, name. rewrite Path_name_child. repeat split; assumption.
Qed.

(** When the resolver reports that nothing was found, the path does not
    exist as given nor in either normal form, and the parent does not
    exist or its listing holds no name that matches. *)
Theorem resolve_path_none (file_path : string) (fs : FS) :
  resolve_path_with_unicode_normalization file_path fs = Ret None ->
  fs_exists fs (Path_str (Path_of file_path)) = Ret false
  /\ fs_exists fs (Path_str (Path_of (normalize_NFC file_path))) = Ret false
  /\ fs_exists fs (Path_str (Path_of (normalize_NFD file_path))) = Ret false
  /\ (fs_exists fs (Path_str (Path_parent (Path_of file_path))) = Ret false
      \/ exists names,
           fs_listdir fs (Path_str (Path_parent (Path_of file_path))) = Ret names
           /\ forall name, In name names ->
                           ~ name_matches (Path_name (Path_of file_path)) name).
Proof.
  unfold resolve_path_with_unicode_normalization.
  destruct (fs_exists fs (Path_str (Path_of file_path))) as [[]|];
    cbn [res_bind]; [discriminate| |discriminate].
  destruct (fs_exists fs (Path_str (Path_of (normalize_NFC file_path)))) as [[]|];
    cbn [res_bind]; [discriminate| |discriminate].
  destruct (fs_exists fs (Path_str (Path_of (normalize_NFD file_path)))) as [[]|];
    cbn [res_bind]; [discriminate| |discriminate].
  destruct (fs_exists fs (Path_str (Path_parent (Path_of file_path)))) as [[]|];
    cbn [res_bind]; [|intros _; repeat split; left; reflexivity|discriminate].
  destruct (fs_listdir fs (Path_str (Path_parent (Path_of file_path)))) as [names|];
    cbn [res_bind]; [|discriminate].
  intros [= Hnone]. repeat split. right. exists names. split; [reflexivity|].
  exact (match_children_complete _ _ _ Hnone).
Qed.

End ResolverSound.

Lemma resolve_path_sound_witness :
  Demo.resolve ("/docs/caf" ++ e_acute ++ ".pdf") Demo.disk
  = Ret (Some (Path_of ("/docs/caf" ++ e_then_acute ++ ".pdf")))
  /\ (tree_exists Demo.disk (Path_str (Path_of ("/docs/caf" ++ e_then_acute ++ ".pdf")))
      = Ret true
      \/ exists names name,
           tree_listdir Demo.disk "/docs" = Ret names
           /\ In name names
           /\ Path_of ("/docs/caf" ++ e_then_acute ++ ".pdf")
              = Path_child (Path_of "/docs") name
           /\ Path_name (Path_of ("/docs/caf" ++ e_then_acute ++ ".pdf")) = name
           /\ name_matches (RT := e_acute_runtime) ("caf" ++ e_acute ++ ".pdf") name).
Proof.
  split; [reflexivity|].
  exact (resolve_path_sound (RT := e_acute_runtime) (FSI := TreeFS_FileSystem)
           ("/docs/caf" ++ e_acute ++ ".pdf") Demo.disk
           (Path_of ("/docs/caf" ++ e_then_acute ++ ".pdf")) eq_refl).
Defined.

Lemma resolve_path_none_witness :
  Demo.resolve "/docs/thesis.pdf" Demo.disk = Ret None
  /\ tree_exists Demo.disk "/docs/thesis.pdf" = Ret false.
Proof.
  split; [reflexivity|].
  exact (proj1 (resolve_path_none (RT := e_acute_runtime) (FSI := TreeFS_FileSystem)
                  "/docs/thesis.pdf" Demo.disk eq_refl)).
Defined.
